(** * EJBCA MCP server: the request-execution layer

    A shallow embedding of [src/ejbca-mcp-server.py]: the REST client
    ([EJBCARestClient]: endpoint mapping, primary channel with the fallback
    through an external [curl] process) and the tool dispatcher
    ([handle_call_tool]: argument lookup, classification of the outcome and
    the clean-up of the displayed result).

    Conventions of the embedding.
    - A Python value is a [pyval]; a [dict] is an association list in
      insertion order; a [str] is the string of its UTF-8 bytes.
    - The network, the external process, the file system, the clock
      ([now_stamp] is [datetime.now().strftime('%Y%m%d_%H%M%S')]) and the
      interpreter's own library functions ([json.loads], [json.dumps],
      [repr] of containers and floats) are the fields of a [world].
    - Effects are explicit: a computation takes the trace of transport calls
      made so far and returns an outcome (a value or a raised exception)
      together with the extended trace. *)

From Stdlib Require Import ZArith String Ascii List Bool Lia.
From Stdlib Require Import PrimFloat Uint63 DecimalString.
Import ListNotations.
Local Open Scope string_scope.
Local Open Scope list_scope.
Local Set Warnings "-register-all".

(** ** Python values *)

Inductive pyval : Type :=
| PNone
| PBool (b : bool)
| PInt (z : Z)
| PFloat (f : float)
| PStr (s : string)
| PBytes (b : list Byte.byte)
| PList (l : list pyval)
| PDict (d : list (string * pyval)).

Definition pydict : Type := list (string * pyval).

Inductive exn : Type :=
| KeyError (key : string)
| TypeError (msg : string)
| TimeoutExpired
| OtherError (msg : string).

Inductive outcome (A : Type) : Type :=
| Ok (a : A)
| Raise (e : exn).
Arguments Ok {A} a.
Arguments Raise {A} e.

(** [str(e)] of an exception: a [KeyError] prints the [repr] of its key.
    [TimeoutExpired] is caught by a clause of its own in [_curl_fallback] and
    is never printed by the program. *)
Definition exn_str (e : exn) : string :=
  match e with
  | KeyError k => "'" ++ k ++ "'"
  | TypeError m => m
  | TimeoutExpired => "Command timed out after 30 seconds"
  | OtherError m => m
  end.

(** ** Dictionaries *)

Module Dict.

Fixpoint get (k : string) (d : pydict) : option pyval :=
  match d with
  | [] => None
  | (k', v) :: d' => if String.eqb k k' then Some v else get k d'
  end.

(** [k in d] *)
Definition has (k : string) (d : pydict) : bool :=
  match get k d with Some _ => true | None => false end.

(** [d.get(k, default)] *)
Definition get_default (k : string) (default : pyval) (d : pydict) : pyval :=
  match get k d with Some v => v | None => default end.

(** [d[k] = v]: an existing key keeps its position, a new key goes last. *)
Fixpoint set (k : string) (v : pyval) (d : pydict) : pydict :=
  match d with
  | [] => [(k, v)]
  | (k', v') :: d' =>
      if String.eqb k k' then (k, v) :: d' else (k', v') :: set k v d'
  end.

(** [d.pop(k, None)], the popped value dropped. *)
Fixpoint pop (k : string) (d : pydict) : pydict :=
  match d with
  | [] => []
  | (k', v') :: d' =>
      if String.eqb k k' then pop k d' else (k', v') :: pop k d'
  end.

(** [d[k]] *)
Definition getitem (k : string) (d : pydict) : outcome pyval :=
  match get k d with Some v => Ok v | None => Raise (KeyError k) end.

End Dict.

(** ** Strings and bytes *)

Definition ascii_in_range (lo hi c : ascii) : bool :=
  (N.leb (N_of_ascii lo) (N_of_ascii c) && N.leb (N_of_ascii c) (N_of_ascii hi))%bool.

Definition hex_digit (upper : bool) (n : N) : ascii :=
  if N.ltb n 10 then ascii_of_N (48 + n)
  else ascii_of_N ((if upper then 55 else 87) + n).

Definition hex2 (upper : bool) (c : ascii) : string :=
  let n := N_of_ascii c in
  String (hex_digit upper (N.div n 16)) (String (hex_digit upper (N.modulo n 16)) "").

(** The characters [urllib.parse.quote] never encodes: letters, digits and
    [_.-~]. With [safe=''] nothing else is kept. *)
Definition always_safe (c : ascii) : bool :=
  (ascii_in_range "A" "Z" c || ascii_in_range "a" "z" c || ascii_in_range "0" "9" c
   || Ascii.eqb c "_" || Ascii.eqb c "." || Ascii.eqb c "-" || Ascii.eqb c "~")%bool.

(** [urllib.parse.quote(s, safe='')] on the UTF-8 bytes of [s]. *)
Fixpoint quote (s : string) : string :=
  match s with
  | EmptyString => EmptyString
  | String c s' =>
      if always_safe c then String c (quote s')
      else String "%" (hex2 true c ++ quote s')
  end.

Definition string_of_bytes (b : list Byte.byte) : string :=
  string_of_list_ascii (map ascii_of_byte b).

Definition double_quote : ascii := ascii_of_N 34.

(** [repr] of a [bytes] object, as CPython prints it: in single quotes,
    unless the bytes hold a single quote and no double quote. *)
Definition bytes_repr_quote (s : string) : ascii :=
  let l := list_ascii_of_string s in
  if (existsb (Ascii.eqb "'") l && negb (existsb (Ascii.eqb double_quote) l))%bool
  then double_quote else "'"%char.

Definition bytes_repr_char (q c : ascii) : string :=
  if (Ascii.eqb c q || Ascii.eqb c "\")%bool then String "\" (String c "")
  else if Ascii.eqb c (ascii_of_N 9) then "\t"
  else if Ascii.eqb c (ascii_of_N 10) then "\n"
  else if Ascii.eqb c (ascii_of_N 13) then "\r"
  else if (N.ltb (N_of_ascii c) 32 || N.leb 127 (N_of_ascii c))%bool
       then "\x" ++ hex2 false c
  else String c "".

Definition bytes_repr (b : list Byte.byte) : string :=
  let s := string_of_bytes b in
  let q := bytes_repr_quote s in
  "b" ++ String q (String.concat "" (map (bytes_repr_char q) (list_ascii_of_string s)))
      ++ String q "".

(** A UTF-8 continuation byte does not start a character. *)
Definition utf8_continuation (c : ascii) : bool :=
  (N.leb 128 (N_of_ascii c) && N.ltb (N_of_ascii c) 192)%bool.

(** [len(s)] of a [str]: the number of characters. *)
Definition str_len (s : string) : Z :=
  Z.of_nat (List.length (filter (fun c => negb (utf8_continuation c)) (list_ascii_of_string s))).

(** [s[:n]] of a [str]: the first [n] characters. *)
Fixpoint str_take_chars (n : nat) (l : list ascii) : list ascii :=
  match l with
  | [] => []
  | c :: l' =>
      if utf8_continuation c then c :: str_take_chars n l'
      else match n with
           | O => []
           | S n' => c :: str_take_chars n' l'
           end
  end.

Definition str_prefix (n : nat) (s : string) : string :=
  string_of_list_ascii (str_take_chars n (list_ascii_of_string s)).

(** [s.rstrip('/')] *)
Fixpoint lstrip_slash (l : list ascii) : list ascii :=
  match l with
  | c :: l' => if Ascii.eqb c "/" then lstrip_slash l' else l
  | [] => []
  end.

Definition rstrip_slash (s : string) : string :=
  string_of_list_ascii (rev (lstrip_slash (rev (list_ascii_of_string s)))).

(** [s.upper()], on ASCII letters. *)
Definition ascii_upper (c : ascii) : ascii :=
  if ascii_in_range "a" "z" c then ascii_of_N (N_of_ascii c - 32) else c.

Definition upper (s : string) : string :=
  string_of_list_ascii (map ascii_upper (list_ascii_of_string s)).

(** [str(n)] of an [int]. *)
Definition int_str (z : Z) : string := NilZero.string_of_int (Z.to_int z).

(** ** Operations on values *)

(** [bool(v)] *)
Definition py_truthy (v : pyval) : bool :=
  match v with
  | PNone => false
  | PBool b => b
  | PInt z => negb (Z.eqb z 0)
  | PFloat f => negb (PrimFloat.eqb f (PrimFloat.of_uint63 0))
  | PStr s => negb (String.eqb s "")
  | PBytes b => match b with [] => false | _ => true end
  | PList l => match l with [] => false | _ => true end
  | PDict d => match d with [] => false | _ => true end
  end.

(** [v == n] for a small non-negative [int] literal [n] (0 and 200 in the
    source): numbers compare by value, [True] is 1, [False] is 0, any other
    type is unequal. *)
Definition py_eq_int (v : pyval) (n : Z) : bool :=
  match v with
  | PBool b => Z.eqb (Z.b2z b) n
  | PInt z => Z.eqb z n
  | PFloat f => PrimFloat.eqb f (PrimFloat.of_uint63 (Uint63.of_Z n))
  | _ => false
  end.

Definition py_type_name (v : pyval) : string :=
  match v with
  | PNone => "NoneType"
  | PBool _ => "bool"
  | PInt _ => "int"
  | PFloat _ => "float"
  | PStr _ => "str"
  | PBytes _ => "bytes"
  | PList _ => "list"
  | PDict _ => "dict"
  end.

(** [v[k] = x] for a [str] key: only a [dict] accepts it. *)
Definition py_setitem (v : pyval) (k : string) (x : pyval) : outcome pyval :=
  match v with
  | PDict d => Ok (PDict (Dict.set k x d))
  | PList _ => Raise (TypeError "list indices must be integers or slices, not str")
  | _ => Raise (TypeError ("'" ++ py_type_name v ++ "' object does not support item assignment"))
  end.

(** [len(v)] *)
Definition py_len (v : pyval) : outcome Z :=
  match v with
  | PStr s => Ok (str_len s)
  | PBytes b => Ok (Z.of_nat (List.length b))
  | PList l => Ok (Z.of_nat (List.length l))
  | PDict d => Ok (Z.of_nat (List.length d))
  | _ => Raise (TypeError ("object of type '" ++ py_type_name v ++ "' has no len()"))
  end.

(** [v[:n]] *)
Definition py_slice_to (n : nat) (v : pyval) : outcome pyval :=
  match v with
  | PStr s => Ok (PStr (str_prefix n s))
  | PBytes b => Ok (PBytes (firstn n b))
  | PList l => Ok (PList (firstn n l))
  | PDict _ => Raise (TypeError "unhashable type: 'slice'")
  | _ => Raise (TypeError ("'" ++ py_type_name v ++ "' object is not subscriptable"))
  end.

(** [urllib.parse.quote(v, safe='')]: a [str] or [bytes] is encoded, any
    other value is refused. *)
Definition py_quote (v : pyval) : outcome string :=
  match v with
  | PStr s => Ok (quote s)
  | PBytes b => Ok (quote (string_of_bytes b))
  | _ => Raise (TypeError "quote_from_bytes() expected bytes")
  end.

(** ** The world outside the program *)

(** What the program reads of a [requests] response: [json] is the value of
    [response.json()], [None] when it raises [JSONDecodeError]; [content_type]
    is the [content-type] header, [None] when the response has none. *)
Record response : Type := {
  status_code : Z;
  content_type : option string;
  content : list Byte.byte;
  text : string;
  json : option pyval
}.

(** The keyword arguments [_make_request] forwards to [session.request]. *)
Record kwargs : Type := {
  kw_params : option pydict;
  kw_json : option pydict
}.

Definition no_kwargs : kwargs := {| kw_params := None; kw_json := None |}.

(** A transport call: a request of the session (primary channel) or a run of
    an external process (fallback channel), each with its timeout. *)
Inductive event : Type :=
| SessionRequest (method url : string) (timeout : Z) (kw : kwargs)
| SubprocessRun (cmd : list string) (timeout : Z).

Definition trace : Type := list event.

Inductive session_outcome : Type :=
| Responded (r : response)
| SessionRaised (e : exn).

Record completed_process : Type := {
  returncode : Z;
  stdout : string;
  stderr : string
}.

Inductive subprocess_outcome : Type :=
| Completed (p : completed_process)
| SubprocessRaised (e : exn).

(** The answers of the environment may depend on the calls made before. *)
Record world : Type := {
  path_exists : string -> bool;
  session_request : trace -> string -> string -> kwargs -> session_outcome;
  subprocess_run : trace -> list string -> subprocess_outcome;
  json_loads : string -> option pyval;
  json_dumps : pydict -> string;
  py_repr : pyval -> string;
  now_stamp : string
}.

(** [str(v)], also what an f-string prints for [v]. *)
Definition py_str (w : world) (v : pyval) : string :=
  match v with
  | PNone => "None"
  | PBool true => "True"
  | PBool false => "False"
  | PInt z => int_str z
  | PStr s => s
  | PBytes b => bytes_repr b
  | _ => py_repr w v
  end.

(** ** Computations with a trace and exceptions *)

Definition M (A : Type) : Type := trace -> outcome A * trace.

Definition ret {A : Type} (a : A) : M A := fun t => (Ok a, t).

Definition bind {A B : Type} (m : M A) (f : A -> M B) : M B :=
  fun t =>
    match m t with
    | (Ok a, t') => f a t'
    | (Raise e, t') => (Raise e, t')
    end.

Definition lift {A : Type} (o : outcome A) : M A := fun t => (o, t).

(** [try: m except Exception as e: h e] *)
Definition try_except {A : Type} (m : M A) (h : exn -> M A) : M A :=
  fun t =>
    match m t with
    | (Ok a, t') => (Ok a, t')
    | (Raise e, t') => h e t'
    end.

Notation "x <- m ;; k" := (bind m (fun x => k))
  (at level 61, m at next level, right associativity).

(** [self.session.request(method, url, timeout=30, **kwargs)] *)
Definition session_request_call (w : world) (method url : string) (kw : kwargs)
  : M response :=
  fun t =>
    let t' := t ++ [SessionRequest method url 30 kw] in
    match session_request w t method url kw with
    | Responded r => (Ok r, t')
    | SessionRaised e => (Raise e, t')
    end.

(** [subprocess.run(cmd, capture_output=True, text=True, timeout=30)] *)
Definition subprocess_run_call (w : world) (cmd : list string)
  : M completed_process :=
  fun t =>
    let t' := t ++ [SubprocessRun cmd 30] in
    match subprocess_run w t cmd with
    | Completed p => (Ok p, t')
    | SubprocessRaised e => (Raise e, t')
    end.

(** ** The client *)

Record EJBCARestClient : Type := {
  base_url : string;
  cert_path : string;
  key_path : string;
  has_certificates : pyval
}.

(** [EJBCARestClient.__init__]: [has_certificates] is the value of the [and]
    chain, the first falsy operand or else the last one. *)
Definition EJBCARestClient_init (w : world) (base_url cert_path key_path : string)
  : EJBCARestClient :=
  {| base_url := rstrip_slash base_url;
     cert_path := cert_path;
     key_path := key_path;
     has_certificates :=
       if negb (py_truthy (PStr cert_path)) then PStr cert_path
       else if negb (py_truthy (PStr key_path)) then PStr key_path
       else if negb (path_exists w cert_path) then PBool false
       else PBool (path_exists w key_path) |}.

Definition api_url (self : EJBCARestClient) (endpoint : string) : string :=
  base_url self ++ "/ejbca/ejbca-rest-api/v1/" ++ endpoint.

Definition curl_base_cmd (self : EJBCARestClient) : list string :=
  ["curl"; "-s"; "-k";
   "--cert"; cert_path self;
   "--key"; key_path self;
   "-H"; "X-Keyfactor-Requested-With: XMLHttpRequest";
   "-H"; "Content-Type: application/json";
   "-H"; "Accept: application/json"].

(** Truth value of the optional [data] dictionary. *)
Definition data_truthy (data : option pydict) : bool :=
  match data with
  | Some d => py_truthy (PDict d)
  | None => false
  end.

Definition data_dumps (w : world) (data : option pydict) : string :=
  match data with
  | Some d => json_dumps w d
  | None => "null"
  end.

(** The command line [_curl_fallback] builds. *)
Definition curl_cmd (w : world) (self : EJBCARestClient)
    (method endpoint : string) (data : option pydict) : list string :=
  let url := api_url self endpoint in
  let cmd := curl_base_cmd self in
  let cmd :=
    if (String.eqb (upper method) "POST" && data_truthy data)%bool
    then cmd ++ ["-X"; "POST"; "-d"; data_dumps w data]
    else if (String.eqb (upper method) "PUT" && data_truthy data)%bool
    then cmd ++ ["-X"; "PUT"; "-d"; data_dumps w data]
    else cmd in
  cmd ++ [url].

Definition _curl_fallback (w : world) (self : EJBCARestClient)
    (method endpoint : string) (data : option pydict) : M pyval :=
  if negb (py_truthy (has_certificates self)) then
    ret (PDict [("error", PStr "No certificates available for authentication")])
  else
    try_except
      (let cmd := curl_cmd w self method endpoint data in
       result <- subprocess_run_call w cmd ;;
       if (Z.eqb (returncode result) 0 && py_truthy (PStr (stdout result)))%bool then
         match json_loads w (stdout result) with
         | Some response =>
             response <- lift (py_setitem response "_method" (PStr "curl")) ;;
             ret response
         | None =>
             ret (PDict [("response", PStr (stdout result));
                         ("success", PBool true);
                         ("_method", PStr "curl")])
         end
       else
         ret (PDict [("error", PStr ("Curl failed (exit code: "
                                      ++ int_str (returncode result) ++ ")"));
                     ("stderr", PStr (stderr result));
                     ("_method", PStr "curl")]))
      (fun e =>
         match e with
         | TimeoutExpired =>
             ret (PDict [("error", PStr "Request timed out"); ("_method", PStr "curl")])
         | _ =>
             ret (PDict [("error", PStr ("Curl command failed: " ++ exn_str e));
                         ("_method", PStr "curl")])
         end).

(** [response.headers.get('content-type', '')] *)
Definition content_type_or_empty (r : response) : string :=
  match content_type r with Some s => s | None => "" end.

Definition content_type_value (r : response) : pyval :=
  match content_type r with Some s => PStr s | None => PNone end.

(** The body of the [try] block of [_make_request]: the attempt on the
    primary channel. *)
Definition primary_attempt (w : world) (self : EJBCARestClient)
    (method endpoint : string) (kw : kwargs) : M pyval :=
  let url := api_url self endpoint in
  response <- session_request_call w method url kw ;;
  if Z.eqb (status_code response) 200 then
    match json response with
    | Some result =>
        result <- lift (py_setitem result "_method" (PStr "requests")) ;;
        result <- lift (py_setitem result "_status_code" (PInt (status_code response))) ;;
        ret result
    | None =>
        if String.prefix "application/pkix-crl" (content_type_or_empty response) then
          ret (PDict [("crl_data", PBytes (content response));
                      ("content_type", content_type_value response);
                      ("content_length", PInt (Z.of_nat (List.length (content response))));
                      ("success", PBool true);
                      ("_method", PStr "requests");
                      ("_status_code", PInt (status_code response))])
        else
          ret (PDict [("response", PStr (text response));
                      ("success", PBool true);
                      ("_method", PStr "requests");
                      ("_status_code", PInt (status_code response))])
    end
  else
    ret (PDict [("error", PStr ("HTTP " ++ int_str (status_code response)));
                ("message", PStr (if py_truthy (PStr (text response))
                                  then str_prefix 500 (text response) else ""));
                ("_method", PStr "requests");
                ("_status_code", PInt (status_code response));
                ("_url", PStr url)]).

Definition _make_request (w : world) (self : EJBCARestClient)
    (method endpoint : string) (kw : kwargs) : M pyval :=
  returned <-
    (if py_truthy (has_certificates self) then
       try_except
         (result <- primary_attempt w self method endpoint kw ;; ret (Some result))
         (fun _ => ret None)
     else ret None) ;;
  match returned with
  | Some result => ret result
  | None =>
      let data := kw_json kw in
      _curl_fallback w self method endpoint data
  end.

(** ** Endpoint mapping

    Each client method builds a request (method, endpoint, keyword
    arguments) and hands it to [_make_request]; the request it builds is a
    function of its own, [<method>_request]. *)

Record request : Type := {
  req_method : string;
  req_endpoint : string;
  req_kwargs : kwargs
}.

(** The query parameters of a request; none when [params] is not passed. *)
Definition query_params (r : request) : pydict :=
  match kw_params (req_kwargs r) with
  | Some d => d
  | None => []
  end.

Definition with_params (d : pydict) : kwargs := {| kw_params := Some d; kw_json := None |}.
Definition with_json (d : pydict) : kwargs := {| kw_params := None; kw_json := Some d |}.

Definition outcome_bind {A B : Type} (o : outcome A) (f : A -> outcome B) : outcome B :=
  match o with
  | Ok a => f a
  | Raise e => Raise e
  end.

Notation "x <~ o ;; k" := (outcome_bind o (fun x => k))
  (at level 61, o at next level, right associativity).

Definition send (w : world) (self : EJBCARestClient) (r : outcome request) : M pyval :=
  rq <- lift r ;;
  _make_request w self (req_method rq) (req_endpoint rq) (req_kwargs rq).

Definition get_certificate_api_status_request : outcome request :=
  Ok {| req_method := "GET"; req_endpoint := "certificate/status"; req_kwargs := no_kwargs |}.

Definition get_ca_list_request : outcome request :=
  Ok {| req_method := "GET"; req_endpoint := "ca"; req_kwargs := no_kwargs |}.

Definition get_ca_version_request : outcome request :=
  Ok {| req_method := "GET"; req_endpoint := "ca/version"; req_kwargs := no_kwargs |}.

Definition search_certificates_request (criteria : pydict) : outcome request :=
  Ok {| req_method := "GET"; req_endpoint := "certificate/search";
        req_kwargs := with_params criteria |}.

Definition get_certificate_by_serial_request (w : world)
    (serial_number issuer_dn : pyval) : outcome request :=
  endpoint <~
    (if py_truthy issuer_dn then
       encoded_dn <~ py_quote issuer_dn ;;
       Ok ("certificate/" ++ encoded_dn ++ "/" ++ py_str w serial_number)%string
     else
       Ok ("certificate/serialnumber/" ++ py_str w serial_number)%string) ;;
  Ok {| req_method := "GET"; req_endpoint := endpoint; req_kwargs := no_kwargs |}.

Definition get_certificate_status_request (w : world)
    (issuer_dn serial_number : pyval) : outcome request :=
  encoded_dn <~ py_quote issuer_dn ;;
  let endpoint := ("certificate/" ++ encoded_dn ++ "/" ++ py_str w serial_number
                   ++ "/revocationstatus")%string in
  Ok {| req_method := "GET"; req_endpoint := endpoint; req_kwargs := no_kwargs |}.

Definition revoke_certificate_request (w : world)
    (issuer_dn serial_number reason : pyval) : outcome request :=
  encoded_dn <~ py_quote issuer_dn ;;
  let endpoint := ("certificate/" ++ encoded_dn ++ "/" ++ py_str w serial_number
                   ++ "/revoke")%string in
  let data := [("reason", reason)] in
  Ok {| req_method := "PUT"; req_endpoint := endpoint; req_kwargs := with_json data |}.

(** The query of the CRL requests: [deltaCrl] when the flag is truthy,
    [crlPartitionIndex] when the index is not equal to 0. *)
Definition crl_params (w : world) (delta_crl crl_partition_index : pyval) : pydict :=
  let params := [] in
  let params := if py_truthy delta_crl
                then Dict.set "deltaCrl" (PStr "true") params else params in
  let params := if negb (py_eq_int crl_partition_index 0)
                then Dict.set "crlPartitionIndex" (PStr (py_str w crl_partition_index)) params
                else params in
  params.

Definition get_latest_crl_request (w : world)
    (issuer_dn delta_crl crl_partition_index : pyval) : outcome request :=
  encoded_dn <~ py_quote issuer_dn ;;
  let params := crl_params w delta_crl crl_partition_index in
  let endpoint := ("ca/" ++ encoded_dn ++ "/getLatestCrl")%string in
  Ok {| req_method := "GET"; req_endpoint := endpoint; req_kwargs := with_params params |}.

Definition get_crl_request (w : world)
    (issuer_dn delta_crl crl_partition_index : pyval) : outcome request :=
  if py_truthy issuer_dn then
    encoded_dn <~ py_quote issuer_dn ;;
    let params := crl_params w delta_crl crl_partition_index in
    let endpoint := ("ca/" ++ encoded_dn ++ "/getcrl")%string in
    Ok {| req_method := "GET"; req_endpoint := endpoint; req_kwargs := with_params params |}
  else
    let endpoint := "ca/crl" in
    Ok {| req_method := "GET"; req_endpoint := endpoint; req_kwargs := no_kwargs |}.

Definition create_crl_request (issuer_dn delta_crl : pyval) : outcome request :=
  encoded_dn <~ py_quote issuer_dn ;;
  let params := [] in
  let params := if py_truthy delta_crl
                then Dict.set "deltacrl" (PStr "true") params else params in
  let endpoint := ("ca/" ++ encoded_dn ++ "/createcrl")%string in
  Ok {| req_method := "POST"; req_endpoint := endpoint; req_kwargs := with_params params |}.

Definition get_crl_info_request (issuer_dn : pyval) : outcome request :=
  encoded_dn <~ py_quote issuer_dn ;;
  Ok {| req_method := "GET"; req_endpoint := ("ca/" ++ encoded_dn ++ "/crlinfo")%string;
        req_kwargs := no_kwargs |}.

Definition get_ca_certificate_request (ca_subject_dn : pyval) : outcome request :=
  encoded_dn <~ py_quote ca_subject_dn ;;
  Ok {| req_method := "GET"; req_endpoint := ("ca/" ++ encoded_dn ++ "/certificate/download")%string;
        req_kwargs := no_kwargs |}.

Definition get_ca_certificates_request (ca_subject_dn : pyval) : outcome request :=
  encoded_dn <~ py_quote ca_subject_dn ;;
  Ok {| req_method := "GET"; req_endpoint := ("ca/" ++ encoded_dn ++ "/certificate")%string;
        req_kwargs := no_kwargs |}.

Definition enroll_certificate_request (w : world)
    (certificate_request ca_name certificate_profile end_entity_profile username : pyval)
  : outcome request :=
  let username := if negb (py_truthy username)
                  then PStr ("mcp_user_" ++ now_stamp w)%string else username in
  let data := [("certificateRequest", certificate_request);
               ("certificateAuthorityName", ca_name);
               ("certificateProfileName", certificate_profile);
               ("endEntityProfileName", end_entity_profile);
               ("username", username);
               ("password", PStr "mcp_temp_password")] in
  Ok {| req_method := "POST"; req_endpoint := "certificate/enroll";
        req_kwargs := with_json data |}.

Section ClientMethods.

Variable w : world.
Variable self : EJBCARestClient.

Definition get_certificate_api_status : M pyval :=
  send w self get_certificate_api_status_request.

Definition get_ca_list : M pyval := send w self get_ca_list_request.

Definition get_ca_version : M pyval := send w self get_ca_version_request.

Definition search_certificates (criteria : pydict) : M pyval :=
  send w self (search_certificates_request criteria).

Definition get_certificate_by_serial (serial_number issuer_dn : pyval) : M pyval :=
  send w self (get_certificate_by_serial_request w serial_number issuer_dn).

Definition get_certificate_status (issuer_dn serial_number : pyval) : M pyval :=
  send w self (get_certificate_status_request w issuer_dn serial_number).

Definition revoke_certificate (issuer_dn serial_number reason : pyval) : M pyval :=
  send w self (revoke_certificate_request w issuer_dn serial_number reason).

Definition get_latest_crl (issuer_dn delta_crl crl_partition_index : pyval) : M pyval :=
  send w self (get_latest_crl_request w issuer_dn delta_crl crl_partition_index).

Definition get_crl (issuer_dn delta_crl crl_partition_index : pyval) : M pyval :=
  send w self (get_crl_request w issuer_dn delta_crl crl_partition_index).

Definition create_crl (issuer_dn delta_crl : pyval) : M pyval :=
  send w self (create_crl_request issuer_dn delta_crl).

Definition get_crl_info (issuer_dn : pyval) : M pyval :=
  send w self (get_crl_info_request issuer_dn).

Definition get_ca_certificate (ca_subject_dn : pyval) : M pyval :=
  send w self (get_ca_certificate_request ca_subject_dn).

Definition get_ca_certificates (ca_subject_dn : pyval) : M pyval :=
  send w self (get_ca_certificates_request ca_subject_dn).

Definition enroll_certificate
    (certificate_request ca_name certificate_profile end_entity_profile username : pyval)
  : M pyval :=
  send w self (enroll_certificate_request w certificate_request ca_name
                 certificate_profile end_entity_profile username).

End ClientMethods.

(** ** The tool dispatcher *)

(** The [required] list of each tool's input schema ([handle_list_tools]);
    a name that is not a tool has none. *)
Definition required_arguments (name : string) : list string :=
  if String.eqb name "get_certificate_by_serial" then ["serial_number"]
  else if String.eqb name "get_certificate_status" then ["issuer_dn"; "serial_number"]
  else if String.eqb name "revoke_certificate" then ["issuer_dn"; "serial_number"]
  else if String.eqb name "get_latest_crl" then ["issuer_dn"]
  else if String.eqb name "create_crl" then ["issuer_dn"]
  else if String.eqb name "get_crl_info" then ["issuer_dn"]
  else if String.eqb name "get_ca_certificate" then ["ca_subject_dn"]
  else if String.eqb name "get_ca_certificates" then ["ca_subject_dn"]
  else if String.eqb name "enroll_certificate" then ["certificate_request"; "ca_name"]
  else [].


Inductive classification : Type := SUCCESS | ERROR | WARNING.

(** The text handed back to the caller, before it is rendered: the three
    shapes of [TextContent] that [handle_call_tool] returns. The status icon
    is a function of the status text and [display_result] is the value that
    [json.dumps] prints. *)
Inductive text_content : Type :=
| UnknownTool (name : string)
| Formatted (status_text : classification) (name : string)
            (method status_code display_result : pyval)
| Failed (name : string) (error : string).

(** [v.get(k)] *)
Definition py_get (v : pyval) (k : string) : outcome pyval :=
  match v with
  | PDict d => Ok (Dict.get_default k PNone d)
  | _ => Raise (OtherError ("'" ++ py_type_name v ++ "' object has no attribute 'get'"))
  end.

(** [l.append(x)] when [cond] holds. *)
Definition append_if (cond : bool) (x : pyval) (l : list pyval) : list pyval :=
  if cond then l ++ [x] else l.

Section Dispatch.

Variable w : world.
Variable ejbca_client : EJBCARestClient.

Definition test_ejbca_connection : M pyval :=
  health_result <- get_certificate_api_status w ejbca_client ;;
  ca_result <- get_ca_version w ejbca_client ;;
  ret (PDict [("connection_test", PStr "completed");
              ("certificate_api_status", health_result);
              ("ca_version", ca_result);
              ("certificates_available", has_certificates ejbca_client);
              ("base_url", PStr (base_url ejbca_client))]).

Definition troubleshoot_connection : M pyval :=
  let cert_exists := if py_truthy (PStr (cert_path ejbca_client))
                     then path_exists w (cert_path ejbca_client) else false in
  let key_exists := if py_truthy (PStr (key_path ejbca_client))
                    then path_exists w (key_path ejbca_client) else false in
  health_result <- get_certificate_api_status w ejbca_client ;;
  ca_result <- get_ca_version w ejbca_client ;;
  ca_list_result <- get_ca_list w ejbca_client ;;
  let recommendations := [] in
  let recommendations :=
    append_if (negb (py_truthy (has_certificates ejbca_client)))
      (PStr "Configure client certificates using EJBCA_CLIENT_CERT and EJBCA_CLIENT_KEY environment variables")
      recommendations in
  let recommendations :=
    append_if (negb cert_exists && py_truthy (PStr (cert_path ejbca_client)))
      (PStr ("Certificate file not found: " ++ cert_path ejbca_client))
      recommendations in
  let recommendations :=
    append_if (negb key_exists && py_truthy (PStr (key_path ejbca_client)))
      (PStr ("Private key file not found: " ++ key_path ejbca_client))
      recommendations in
  health_error <- lift (py_get health_result "error") ;;
  let recommendations :=
    append_if (py_truthy health_error)
      (PStr "Certificate API not accessible - check EJBCA_BASE_URL and certificate authentication")
      recommendations in
  ca_error <- lift (py_get ca_result "error") ;;
  let recommendations :=
    append_if (py_truthy ca_error)
      (PStr "CA API not accessible - verify EJBCA REST API is enabled")
      recommendations in
  ret (PDict [("diagnostics",
               PDict [("base_url", PStr (base_url ejbca_client));
                      ("cert_path", PStr (cert_path ejbca_client));
                      ("key_path", PStr (key_path ejbca_client));
                      ("cert_exists", PBool cert_exists);
                      ("key_exists", PBool key_exists);
                      ("certificates_available", has_certificates ejbca_client)]);
              ("api_tests",
               PDict [("certificate_status", health_result);
                      ("ca_version", ca_result);
                      ("ca_list", ca_list_result)]);
              ("recommendations", PList recommendations)]).

(** [criteria[key] = arguments[arg]] when [arg in arguments]. *)
Definition copy_argument (arguments : pydict) (arg key : string) (criteria : pydict)
  : pydict :=
  match Dict.get arg arguments with
  | Some v => Dict.set key v criteria
  | None => criteria
  end.

(** The [if]/[elif] chain of [handle_call_tool]: the raw result of the
    tool, [None] for a name that is not a tool. Arguments are looked up
    from left to right before the client method is entered. *)
Definition call_tool (name : string) (arguments : pydict) : M (option pyval) :=
  let arg k := lift (Dict.getitem k arguments) in
  let arg_get k default := Dict.get_default k default arguments in
  let some (m : M pyval) : M (option pyval) := result <- m ;; ret (Some result) in
  if String.eqb name "test_ejbca_connection" then some test_ejbca_connection
  else if String.eqb name "troubleshoot_connection" then some troubleshoot_connection
  else if String.eqb name "get_certificate_api_status" then
    some (get_certificate_api_status w ejbca_client)
  else if String.eqb name "get_ca_list" then some (get_ca_list w ejbca_client)
  else if String.eqb name "get_ca_version" then some (get_ca_version w ejbca_client)
  else if String.eqb name "search_certificates" then
    let criteria := [] in
    let criteria := copy_argument arguments "query" "query" criteria in
    let criteria := copy_argument arguments "max_results" "maxResults" criteria in
    let criteria := copy_argument arguments "subject_dn" "subjectDN" criteria in
    let criteria := copy_argument arguments "issuer_dn" "issuerDN" criteria in
    some (search_certificates w ejbca_client criteria)
  else if String.eqb name "get_certificate_by_serial" then
    serial_number <- arg "serial_number" ;;
    some (get_certificate_by_serial w ejbca_client serial_number
            (arg_get "issuer_dn" PNone))
  else if String.eqb name "get_certificate_status" then
    issuer_dn <- arg "issuer_dn" ;;
    serial_number <- arg "serial_number" ;;
    some (get_certificate_status w ejbca_client issuer_dn serial_number)
  else if String.eqb name "revoke_certificate" then
    issuer_dn <- arg "issuer_dn" ;;
    serial_number <- arg "serial_number" ;;
    some (revoke_certificate w ejbca_client issuer_dn serial_number
            (arg_get "reason" (PStr "UNSPECIFIED")))
  else if String.eqb name "get_crl" then
    some (get_crl w ejbca_client
            (arg_get "issuer_dn" PNone)
            (arg_get "delta_crl" (PBool false))
            (arg_get "crl_partition_index" (PInt 0)))
  else if String.eqb name "get_latest_crl" then
    issuer_dn <- arg "issuer_dn" ;;
    some (get_latest_crl w ejbca_client issuer_dn
            (arg_get "delta_crl" (PBool false))
            (arg_get "crl_partition_index" (PInt 0)))
  else if String.eqb name "create_crl" then
    issuer_dn <- arg "issuer_dn" ;;
    some (create_crl w ejbca_client issuer_dn (arg_get "delta_crl" (PBool false)))
  else if String.eqb name "get_crl_info" then
    issuer_dn <- arg "issuer_dn" ;;
    some (get_crl_info w ejbca_client issuer_dn)
  else if String.eqb name "get_ca_certificate" then
    ca_subject_dn <- arg "ca_subject_dn" ;;
    some (get_ca_certificate w ejbca_client ca_subject_dn)
  else if String.eqb name "get_ca_certificates" then
    ca_subject_dn <- arg "ca_subject_dn" ;;
    some (get_ca_certificates w ejbca_client ca_subject_dn)
  else if String.eqb name "enroll_certificate" then
    certificate_request <- arg "certificate_request" ;;
    ca_name <- arg "ca_name" ;;
    some (enroll_certificate w ejbca_client certificate_request ca_name
            (arg_get "certificate_profile" (PStr "ENDUSER"))
            (arg_get "end_entity_profile" (PStr "EMPTY"))
            (arg_get "username" PNone))
  else ret None.

(** The status line of a raw result: [(method, status_code, status_text)]. *)
Definition classify (result : pyval) : pyval * pyval * classification :=
  match result with
  | PDict d =>
      let method := Dict.get_default "_method" (PStr "unknown") d in
      let status_code := Dict.get_default "_status_code" (PStr "N/A") d in
      let status_text :=
        if Dict.has "error" d then ERROR
        else if (py_truthy (Dict.get_default "success" PNone d)
                 || py_eq_int status_code 200)%bool then SUCCESS
        else WARNING in
      (method, status_code, status_text)
  | _ => (PStr "unknown", PStr "N/A", SUCCESS)
  end.

(** The displayed copy of a raw result: the internal fields dropped, the
    binary CRL replaced by its size and a preview of at most 50 items. *)
Definition clean_up (result : pyval) : outcome pyval :=
  match result with
  | PDict d =>
      let display_result := d in
      let display_result := Dict.pop "_method" display_result in
      let display_result := Dict.pop "_status_code" display_result in
      let display_result := Dict.pop "_url" display_result in
      if Dict.has "crl_data" display_result then
        let crl_data := Dict.get_default "crl_data" PNone display_result in
        let display_result := Dict.pop "crl_data" display_result in
        size <~ py_len crl_data ;;
        let display_result := Dict.set "crl_size_bytes" (PInt size) display_result in
        size' <~ py_len crl_data ;;
        preview <~
          (if Z.ltb 50 size' then
             head <~ py_slice_to 50 crl_data ;;
             Ok (py_str w head ++ "...")%string
           else Ok (py_str w crl_data)) ;;
        Ok (PDict (Dict.set "crl_data_preview" (PStr preview) display_result))
      else Ok (PDict display_result)
  | _ => Ok result
  end.

Definition format_result (name : string) (result : pyval) : outcome text_content :=
  let '(method, status_code, status_text) := classify result in
  display_result <~ clean_up result ;;
  Ok (Formatted status_text name method status_code display_result).

(** [handle_call_tool]: whatever is raised inside the [try] block becomes
    the "Failed to execute" text. *)
Definition handle_call_tool (name : string) (arguments : pydict)
  : trace -> text_content * trace :=
  fun t =>
    match (result <- call_tool name arguments ;;
           match result with
           | None => ret (UnknownTool name)
           | Some result => lift (format_result name result)
           end) t with
    | (Ok content, t') => (content, t')
    | (Raise e, t') => (Failed name (exn_str e), t')
    end.

End Dispatch.

(** The classification a returned text carries: the "Failed to execute"
    text is headed ERROR, the "Unknown tool" text carries no status text. *)
Definition content_status (c : text_content) : option classification :=
  match c with
  | UnknownTool _ => None
  | Formatted status_text _ _ _ _ => Some status_text
  | Failed _ _ => Some ERROR
  end.

Definition display_of (c : text_content) : option pyval :=
  match c with
  | Formatted _ _ _ _ display_result => Some display_result
  | _ => None
  end.

(** The transport calls of a trace, by channel. *)
Definition is_session_request (e : event) : bool :=
  match e with SessionRequest _ _ _ _ => true | SubprocessRun _ _ => false end.

Definition is_subprocess_run (e : event) : bool :=
  match e with SubprocessRun _ _ => true | SessionRequest _ _ _ _ => false end.

Definition session_calls (t : trace) : nat := List.length (filter is_session_request t).
Definition subprocess_calls (t : trace) : nat := List.length (filter is_subprocess_run t).

(** ** Vocabulary of the statements *)

(** What the fallback returns is decided by the outcome of the process. *)
Definition curl_result (w : world) (o : subprocess_outcome) : pyval :=
  match o with
  | Completed result =>
      if (Z.eqb (returncode result) 0 && py_truthy (PStr (stdout result)))%bool then
        match json_loads w (stdout result) with
        | Some (PDict d) => PDict (Dict.set "_method" (PStr "curl") d)
        | Some v =>
            PDict [("error", PStr ("Curl command failed: "
                                    ++ match py_setitem v "_method" (PStr "curl") with
                                       | Raise e => exn_str e
                                       | Ok _ => ""
                                       end));
                   ("_method", PStr "curl")]
        | None =>
            PDict [("response", PStr (stdout result));
                   ("success", PBool true);
                   ("_method", PStr "curl")]
        end
      else
        PDict [("error", PStr ("Curl failed (exit code: "
                                ++ int_str (returncode result) ++ ")"));
               ("stderr", PStr (stderr result));
               ("_method", PStr "curl")]
  | SubprocessRaised TimeoutExpired =>
      PDict [("error", PStr "Request timed out"); ("_method", PStr "curl")]
  | SubprocessRaised e =>
      PDict [("error", PStr ("Curl command failed: " ++ exn_str e));
             ("_method", PStr "curl")]
  end.

Definition is_dict (v : pyval) : bool :=
  match v with PDict _ => true | _ => false end.

(** The entry the primary channel logs for a request. *)
Definition primary_call (self : EJBCARestClient) (method endpoint : string)
    (kw : kwargs) : event :=
  SessionRequest method (api_url self endpoint) 30 kw.

(** The entry the fallback channel logs for a request. *)
Definition fallback_call (w : world) (self : EJBCARestClient)
    (method endpoint : string) (kw : kwargs) : event :=
  SubprocessRun (curl_cmd w self method endpoint (kw_json kw)) 30.

(** The error outcome of a response with a status other than 200. *)
Definition error_result (self : EJBCARestClient) (endpoint : string) (r : response)
  : pyval :=
  PDict [("error", PStr ("HTTP " ++ int_str (status_code r)));
         ("message", PStr (if py_truthy (PStr (text r))
                           then str_prefix 500 (text r) else ""));
         ("_method", PStr "requests");
         ("_status_code", PInt (status_code r));
         ("_url", PStr (api_url self endpoint))].

(** The rule of the specification: an error indicator gives ERROR, else a
    success indicator or a backend status 200 gives SUCCESS, else WARNING. *)
Definition spec_classification (error_indicator success_indicator status_200 : bool)
  : classification :=
  if error_indicator then ERROR
  else if (success_indicator || status_200)%bool then SUCCESS
  else WARNING.

Definition error_indicator (d : pydict) : bool := Dict.has "error" d.

Definition success_indicator (d : pydict) : bool :=
  py_truthy (Dict.get_default "success" PNone d).

Definition status_200 (d : pydict) : bool :=
  py_eq_int (Dict.get_default "_status_code" (PStr "N/A") d) 200.

Definition has_error_message (v : pyval) : bool :=
  match v with
  | PDict d => Dict.has "error" d
  | _ => false
  end.

(** A reply headed SUCCESS whose displayed result holds an error message. *)
Definition success_with_error (c : text_content) : bool :=
  match c with
  | Formatted SUCCESS _ _ _ display_result => has_error_message display_result
  | _ => false
  end.

Definition query_of (o : outcome request) : option pydict :=
  match o with
  | Ok r => Some (query_params r)
  | Raise _ => None
  end.

(** The preview of a binary body: all of it, or its first 50 bytes and an
    ellipsis. *)
Definition crl_preview (body : list Byte.byte) : string :=
  if Z.ltb 50 (Z.of_nat (List.length body))
  then bytes_repr (firstn 50 body) ++ "..."
  else bytes_repr body.

Definition no_certificates_error : pyval :=
  PDict [("error", PStr "No certificates available for authentication")].

Definition configure_certificates : pyval :=
  PStr "Configure client certificates using EJBCA_CLIENT_CERT and EJBCA_CLIENT_KEY environment variables".

(** ** The tool list

    [handle_list_tools]: each tool with the properties of its input schema
    (name, JSON type, default when the schema gives one) and its [required]
    list. The descriptions are left out. *)

Inductive json_type : Type := JString | JInteger | JBoolean.

Record property : Type := {
  prop_name : string;
  prop_type : json_type;
  prop_default : option pyval
}.

Record tool : Type := {
  tool_name : string;
  tool_properties : list property;
  tool_required : list string
}.

Definition prop (name : string) (type : json_type) : property :=
  {| prop_name := name; prop_type := type; prop_default := None |}.

Definition prop_with_default (name : string) (type : json_type) (default : pyval)
  : property :=
  {| prop_name := name; prop_type := type; prop_default := Some default |}.

Definition handle_list_tools : list tool :=
  [ {| tool_name := "test_ejbca_connection"; tool_properties := []; tool_required := [] |};
    {| tool_name := "troubleshoot_connection"; tool_properties := []; tool_required := [] |};
    {| tool_name := "get_certificate_api_status"; tool_properties := [];
       tool_required := [] |};
    {| tool_name := "get_ca_list"; tool_properties := []; tool_required := [] |};
    {| tool_name := "get_ca_version"; tool_properties := []; tool_required := [] |};
    {| tool_name := "search_certificates";
       tool_properties := [prop "query" JString;
                           prop_with_default "max_results" JInteger (PInt 10);
                           prop "subject_dn" JString;
                           prop "issuer_dn" JString];
       tool_required := [] |};
    {| tool_name := "get_certificate_by_serial";
       tool_properties := [prop "serial_number" JString; prop "issuer_dn" JString];
       tool_required := ["serial_number"] |};
    {| tool_name := "get_certificate_status";
       tool_properties := [prop "issuer_dn" JString; prop "serial_number" JString];
       tool_required := ["issuer_dn"; "serial_number"] |};
    {| tool_name := "revoke_certificate";
       tool_properties := [prop "issuer_dn" JString; prop "serial_number" JString;
                           prop_with_default "reason" JString (PStr "UNSPECIFIED")];
       tool_required := ["issuer_dn"; "serial_number"] |};
    {| tool_name := "get_crl";
       tool_properties := [prop "issuer_dn" JString;
                           prop_with_default "delta_crl" JBoolean (PBool false);
                           prop_with_default "crl_partition_index" JInteger (PInt 0)];
       tool_required := [] |};
    {| tool_name := "get_latest_crl";
       tool_properties := [prop "issuer_dn" JString;
                           prop_with_default "delta_crl" JBoolean (PBool false);
                           prop_with_default "crl_partition_index" JInteger (PInt 0)];
       tool_required := ["issuer_dn"] |};
    {| tool_name := "create_crl";
       tool_properties := [prop "issuer_dn" JString;
                           prop_with_default "delta_crl" JBoolean (PBool false)];
       tool_required := ["issuer_dn"] |};
    {| tool_name := "get_crl_info";
       tool_properties := [prop "issuer_dn" JString];
       tool_required := ["issuer_dn"] |};
    {| tool_name := "get_ca_certificate";
       tool_properties := [prop "ca_subject_dn" JString];
       tool_required := ["ca_subject_dn"] |};
    {| tool_name := "get_ca_certificates";
       tool_properties := [prop "ca_subject_dn" JString];
       tool_required := ["ca_subject_dn"] |};
    {| tool_name := "enroll_certificate";
       tool_properties := [prop "certificate_request" JString;
                           prop "ca_name" JString;
                           prop_with_default "certificate_profile" JString (PStr "ENDUSER");
                           prop_with_default "end_entity_profile" JString (PStr "EMPTY");
                           prop "username" JString];
       tool_required := ["certificate_request"; "ca_name"] |} ].

Definition tool_names : list string := map tool_name handle_list_tools.

Definition is_listed (name : string) : bool := existsb (String.eqb name) tool_names.

Definition is_unknown_tool (c : text_content) : bool :=
  match c with UnknownTool _ => true | _ => false end.

(** ** More vocabulary of the statements *)

(** A [str] or [bytes] value: what [urllib.parse.quote] accepts. *)
Definition is_text (v : pyval) : bool :=
  match v with PStr _ | PBytes _ => true | _ => false end.

(** The tools that quote a distinguished name unconditionally, with the
    argument that holds it. *)
Definition dn_argument (name : string) : option string :=
  if String.eqb name "get_certificate_status" then Some "issuer_dn"
  else if String.eqb name "revoke_certificate" then Some "issuer_dn"
  else if String.eqb name "get_latest_crl" then Some "issuer_dn"
  else if String.eqb name "create_crl" then Some "issuer_dn"
  else if String.eqb name "get_crl_info" then Some "issuer_dn"
  else if String.eqb name "get_ca_certificate" then Some "ca_subject_dn"
  else if String.eqb name "get_ca_certificates" then Some "ca_subject_dn"
  else None.

(** The keys [handle_call_tool] drops from, or replaces in, what it shows. *)
Definition internal_keys : list string := ["_method"; "_status_code"; "_url"; "crl_data"].

(** An internal key among the entries of the displayed dict itself; the
    dicts nested in its values are not looked into. *)
Definition top_level_internal_key (c : text_content) : bool :=
  match c with
  | Formatted _ _ _ _ (PDict d) => existsb (fun k => Dict.has k d) internal_keys
  | _ => false
  end.

(** A [crl_data] value the clean-up can summarise: it has a length and, when
    longer than 50, a slice. A dict has a length but no slice. *)
Definition summarisable (v : pyval) : bool :=
  match v with
  | PStr _ | PBytes _ | PList _ => true
  | PDict d => negb (Z.ltb 50 (Z.of_nat (List.length d)))
  | _ => false
  end.

Definition crl_data_ok (d : pydict) : bool :=
  match Dict.get "crl_data" d with
  | Some v => summarisable v
  | None => true
  end.

(** The one case in which the fallback hands on a JSON object: the process
    ends with exit code 0 and what it printed parses to an object. *)
Definition returns_json_object (w : world) (o : subprocess_outcome) : bool :=
  match o with
  | Completed p =>
      (Z.eqb (returncode p) 0 && py_truthy (PStr (stdout p))
       && match json_loads w (stdout p) with
          | Some (PDict _) => true
          | _ => false
          end)%bool
  | SubprocessRaised _ => false
  end.

(** The transport calls one request may add to the trace. *)
Inductive channel_use : Type := NoChannel | PrimaryOnly | PrimaryThenFallback.

Definition calls_of (w : world) (self : EJBCARestClient) (method endpoint : string)
    (kw : kwargs) (u : channel_use) : trace :=
  match u with
  | NoChannel => []
  | PrimaryOnly => [primary_call self method endpoint kw]
  | PrimaryThenFallback =>
      [primary_call self method endpoint kw; fallback_call w self method endpoint kw]
  end.

(** The channel tag an outcome must carry for a use of the channels. *)
Definition tag_of (u : channel_use) : option pyval :=
  match u with
  | NoChannel => None
  | PrimaryOnly => Some (PStr "requests")
  | PrimaryThenFallback => Some (PStr "curl")
  end.

(** Inverse of [quote]: a percent sign and two hexadecimal digits give back
    the byte. *)
Definition hex_value (c : ascii) : option N :=
  let n := N_of_ascii c in
  if ascii_in_range "0" "9" c then Some (n - 48)%N
  else if ascii_in_range "A" "F" c then Some (n - 55)%N
  else if ascii_in_range "a" "f" c then Some (n - 87)%N
  else None.

Fixpoint unquote (s : string) : string :=
  match s with
  | EmptyString => EmptyString
  | String c s1 =>
      match s1 with
      | String h (String l s2) =>
          if Ascii.eqb c "%" then
            match hex_value h, hex_value l with
            | Some a, Some b => String (ascii_of_N (16 * a + b)) (unquote s2)
            | _, _ => String c (unquote s1)
            end
          else String c (unquote s1)
      | _ => String c (unquote s1)
      end
  end.

(** A dispatch that never ends in the "Unknown tool" branch. *)
Definition never_none (m : M (option pyval)) : Prop :=
  forall t r t', m t = (r, t') -> r <> Ok None.

Definition ends_with_slash (s : string) : bool :=
  match rev (list_ascii_of_string s) with
  | c :: _ => Ascii.eqb c "/"
  | [] => false
  end.

(** ** Sample worlds

    Concrete environments for the closed examples below. Their library
    functions are given on the inputs the examples use. *)

Module Sample.

Definition loads (s : string) : option pyval :=
  if String.eqb s "{}" then Some (PDict [])
  else if String.eqb s "[]" then Some (PList [])
  else None.

Definition ok_response : response :=
  {| status_code := 200; content_type := Some "application/json";
     content := [Byte.x7b; Byte.x7d]; text := "{}"; json := Some (PDict []) |}.

Definition not_found_response : response :=
  {| status_code := 404; content_type := Some "text/plain";
     content := []; text := ""; json := None |}.

Definition list_response : response :=
  {| status_code := 200; content_type := Some "application/json";
     content := [Byte.x5b; Byte.x5d]; text := "[]"; json := Some (PList []) |}.

(** A DER-encoded CRL of 60 bytes: a SEQUENCE header and 58 bytes 0xff. *)
Definition crl_bytes : list Byte.byte :=
  Byte.x30 :: Byte.x3a :: repeat Byte.xff 58.

Definition crl_response : response :=
  {| status_code := 200; content_type := Some "application/pkix-crl";
     content := crl_bytes; text := "0:"; json := None |}.

Definition silent_process : completed_process :=
  {| returncode := 0; stdout := ""; stderr := "" |}.

(** What [curl] prints for a CRL served in PEM armour. *)
Definition text_process : completed_process :=
  {| returncode := 0; stdout := "-----BEGIN X509 CRL-----"; stderr := "" |}.

Definition make (exists_ : string -> bool) (answer : session_outcome)
    (run : subprocess_outcome) : world :=
  {| path_exists := exists_;
     session_request := fun _ _ _ _ => answer;
     subprocess_run := fun _ _ => run;
     json_loads := loads;
     json_dumps := fun _ => "{}";
     py_repr := fun _ => "";
     now_stamp := "20240101_120000" |}.

(** Credentials on disk, the backend answers 200 with an empty object. *)
Definition online : world :=
  make (fun _ => true) (Responded ok_response) (Completed silent_process).

(** Credentials on disk, the backend answers 404. *)
Definition refusing : world :=
  make (fun _ => true) (Responded not_found_response) (Completed silent_process).

(** Credentials on disk, the backend answers 200 with a JSON array. *)
Definition listing : world :=
  make (fun _ => true) (Responded list_response) (Completed silent_process).

(** Credentials on disk, the backend answers 200 with a binary CRL; [curl],
    were it run, would print a CRL in PEM armour. *)
Definition serving_crl : world :=
  make (fun _ => true) (Responded crl_response) (Completed text_process).

(** Credentials on disk, the session times out and [curl] prints the body. *)
Definition primary_down : world :=
  make (fun _ => true) (SessionRaised (OtherError "Read timed out."))
       (Completed text_process).

(** No credential file on disk. *)
Definition no_files : world :=
  make (fun _ => false) (Responded ok_response) (Completed silent_process).

Definition client (w : world) : EJBCARestClient :=
  EJBCARestClient_init w "https://localhost:443/"
    "/etc/ejbca/client.pem" "/etc/ejbca/client.key".

Definition created_response : response :=
  {| status_code := 201; content_type := Some "application/json";
     content := [Byte.x7b; Byte.x7d]; text := "{}"; json := Some (PDict []) |}.

Definition text_response : response :=
  {| status_code := 200; content_type := Some "text/plain";
     content := [Byte.x4f; Byte.x4b]; text := "OK"; json := None |}.

Definition json_process : completed_process :=
  {| returncode := 0; stdout := "{}"; stderr := "" |}.

(** Credentials on disk, the backend answers 201 with an empty object. *)
Definition creating : world :=
  make (fun _ => true) (Responded created_response) (Completed silent_process).

(** Credentials on disk, the backend answers 200 with plain text. *)
Definition plain : world :=
  make (fun _ => true) (Responded text_response) (Completed silent_process).

(** Credentials on disk, the session fails and [curl] prints an empty JSON
    object. *)
Definition fallback_json : world :=
  make (fun _ => true) (SessionRaised (OtherError "Connection refused"))
       (Completed json_process).

Definition list_process : completed_process :=
  {| returncode := 0; stdout := "[]"; stderr := "" |}.

Definition failed_process : completed_process :=
  {| returncode := 7; stdout := "{}"; stderr := "Failed to connect" |}.

Definition odd_response : response :=
  {| status_code := 200; content_type := Some "application/json";
     content := []; text := ""; json := Some (PDict [("crl_data", PInt 5)]) |}.

(** Credentials on disk, the session fails and [curl] prints a JSON array. *)
Definition fallback_list : world :=
  make (fun _ => true) (SessionRaised (OtherError "Connection refused"))
       (Completed list_process).

(** Credentials on disk, the session fails and [curl] exits with code 7. *)
Definition fallback_failing : world :=
  make (fun _ => true) (SessionRaised (OtherError "Connection refused"))
       (Completed failed_process).

(** Credentials on disk, the session fails and [curl] runs out of time. *)
Definition fallback_timeout : world :=
  make (fun _ => true) (SessionRaised (OtherError "Connection refused"))
       (SubprocessRaised TimeoutExpired).

(** Credentials on disk, the backend answers 200 with an object whose
    [crl_data] entry is a number. *)
Definition odd_crl : world :=
  make (fun _ => true) (Responded odd_response) (Completed silent_process).

(** What [subprocess.run] raises with [text=True] when the output is the
    DER bytes of [crl_bytes]: they are not UTF-8. *)
Definition decode_error : exn :=
  OtherError "'utf-8' codec can't decode byte 0xff in position 2: invalid start byte".

(** Credentials on disk, the session times out and the binary CRL that
    [curl] prints cannot be decoded as text. *)
Definition primary_down_binary : world :=
  make (fun _ => true) (SessionRaised (OtherError "Read timed out."))
       (SubprocessRaised decode_error).

End Sample.

(** * Properties *)

(** ** Transport: primary channel and fallback *)

Ltac unfold_transport :=
  unfold _make_request, primary_attempt, _curl_fallback, try_except, bind, ret, lift,
    session_request_call, subprocess_run_call.

Lemma curl_fallback_runs_once w self method endpoint data t :
  py_truthy (has_certificates self) = true ->
  let cmd := curl_cmd w self method endpoint data in
  _curl_fallback w self method endpoint data t
  = (Ok (curl_result w (subprocess_run w t cmd)), t ++ [SubprocessRun cmd 30]).
Proof.
  intros Hcert cmd. unfold_transport. rewrite Hcert. cbn [negb].
  fold cmd. unfold curl_result.
  destruct (subprocess_run w t cmd) as [p | e].
  - destruct (Z.eqb (returncode p) 0 && py_truthy (PStr (stdout p)))%bool; [|reflexivity].
    destruct (json_loads w (stdout p)) as [v|]; [|reflexivity].
    destruct v; reflexivity.
  - destruct e; reflexivity.
Qed.

Lemma curl_result_is_dict w o :
  exists d, curl_result w o = PDict d /\ Dict.get "_method" d = Some (PStr "curl").
Proof.
  destruct o as [p | e]; unfold curl_result.
  - destruct (Z.eqb (returncode p) 0 && py_truthy (PStr (stdout p)))%bool.
    + destruct (json_loads w (stdout p)) as [v|].
      * destruct v; try (eexists; split; [reflexivity | reflexivity]).
        eexists; split; [reflexivity|].
        induction d as [|[k x] d IH]; [reflexivity|].
        cbn [Dict.set]. destruct (String.eqb "_method" k) eqn:E.
        -- cbn [Dict.get]. now rewrite String.eqb_refl.
        -- cbn [Dict.get]. now rewrite E.
      * eexists; split; reflexivity.
    + eexists; split; reflexivity.
  - destruct e; eexists; split; reflexivity.
Qed.

Lemma make_request_primary_raises w self method endpoint kw t e :
  py_truthy (has_certificates self) = true ->
  primary_attempt w self method endpoint kw t
  = (Raise e, t ++ [primary_call self method endpoint kw]) ->
  _make_request w self method endpoint kw t
  = _curl_fallback w self method endpoint (kw_json kw)
      (t ++ [primary_call self method endpoint kw]).
Proof.
  intros Hcert Hraise. unfold _make_request, try_except, bind at 1.
  rewrite Hcert. unfold bind at 1. rewrite Hraise. reflexivity.
Qed.

Lemma make_request_after_fallback w self method endpoint kw t :
  py_truthy (has_certificates self) = true ->
  let t1 := t ++ [primary_call self method endpoint kw] in
  exists d,
    _curl_fallback w self method endpoint (kw_json kw) t1
    = (Ok (PDict d), t1 ++ [fallback_call w self method endpoint kw])
    /\ Dict.get "_method" d = Some (PStr "curl").
Proof.
  intros Hcert t1.
  destruct (curl_result_is_dict w
              (subprocess_run w t1 (curl_cmd w self method endpoint (kw_json kw))))
    as [d [Hd Hm]].
  exists d. split; [|exact Hm].
  rewrite curl_fallback_runs_once by exact Hcert. cbv zeta. now rewrite Hd.
Qed.

(** C10: a fallback whose process exits with code 0 and prints nothing is an
    error outcome that reports the exit code, headed ERROR in the reply; the
    process has run once. *)
Theorem curl_exit_zero_empty_stdout_is_error
    w self method endpoint data t (p : completed_process) :
  py_truthy (has_certificates self) = true ->
  subprocess_run w t (curl_cmd w self method endpoint data) = Completed p ->
  returncode p = 0%Z ->
  stdout p = "" ->
  let failure := PDict [("error", PStr "Curl failed (exit code: 0)");
                        ("stderr", PStr (stderr p));
                        ("_method", PStr "curl")] in
  _curl_fallback w self method endpoint data t
  = (Ok failure, t ++ [SubprocessRun (curl_cmd w self method endpoint data) 30])
  /\ classify failure = (PStr "curl", PStr "N/A", ERROR).
Proof.
  intros Hcert Hrun Hrc Hout failure. split; [|reflexivity].
  rewrite curl_fallback_runs_once by exact Hcert. cbv zeta.
  rewrite Hrun. unfold curl_result. rewrite Hrc, Hout. reflexivity.
Qed.

Lemma curl_exit_zero_empty_stdout_is_error_witness :
  let w := Sample.online in
  let self := Sample.client w in
  _curl_fallback w self "GET" "ca" None []
  = (Ok (PDict [("error", PStr "Curl failed (exit code: 0)");
                ("stderr", PStr "");
                ("_method", PStr "curl")]),
     [SubprocessRun (curl_cmd w self "GET" "ca" None) 30])
  /\ classify (PDict [("error", PStr "Curl failed (exit code: 0)");
                      ("stderr", PStr "");
                      ("_method", PStr "curl")])
     = (PStr "curl", PStr "N/A", ERROR).
Proof.
  intros w self.
  apply (curl_exit_zero_empty_stdout_is_error w self "GET" "ca" None []
           Sample.silent_process); reflexivity.
Defined.

(** C9: a 200 response whose body parses to a JSON value that is not an
    object makes the primary attempt raise a [TypeError] at the first item
    assignment; the request then goes through the fallback channel, whose
    outcome is returned. *)
Theorem json_non_object_falls_back w self method endpoint kw t r v :
  py_truthy (has_certificates self) = true ->
  session_request w t method (api_url self endpoint) kw = Responded r ->
  status_code r = 200%Z ->
  json r = Some v ->
  is_dict v = false ->
  let t1 := t ++ [primary_call self method endpoint kw] in
  (exists msg, primary_attempt w self method endpoint kw t = (Raise (TypeError msg), t1))
  /\ _make_request w self method endpoint kw t
     = _curl_fallback w self method endpoint (kw_json kw) t1
  /\ exists d,
       _make_request w self method endpoint kw t
       = (Ok (PDict d), t1 ++ [fallback_call w self method endpoint kw])
       /\ Dict.get "_method" d = Some (PStr "curl").
Proof.
  intros Hcert Hresp Hstatus Hjson Hv t1.
  assert (Hraise : exists msg,
            primary_attempt w self method endpoint kw t = (Raise (TypeError msg), t1)).
  { unfold primary_attempt, session_request_call, bind, lift.
    rewrite Hresp, Hstatus, Hjson. cbn [Z.eqb Pos.eqb].
    destruct v; try discriminate Hv; eexists; reflexivity. }
  destruct Hraise as [msg Hraise].
  pose proof (make_request_primary_raises w self method endpoint kw t _ Hcert Hraise) as Hmk.
  split; [now exists msg|]. split; [exact Hmk|].
  destruct (make_request_after_fallback w self method endpoint kw t Hcert) as [d [Hd Hm]].
  exists d. split; [|exact Hm]. now rewrite Hmk.
Qed.

Lemma json_non_object_falls_back_witness :
  let w := Sample.listing in
  let self := Sample.client w in
  let t1 := [primary_call self "GET" "ca" no_kwargs] in
  (exists msg, primary_attempt w self "GET" "ca" no_kwargs [] = (Raise (TypeError msg), t1))
  /\ _make_request w self "GET" "ca" no_kwargs []
     = _curl_fallback w self "GET" "ca" None t1
  /\ exists d,
       _make_request w self "GET" "ca" no_kwargs []
       = (Ok (PDict d), t1 ++ [fallback_call w self "GET" "ca" no_kwargs])
       /\ Dict.get "_method" d = Some (PStr "curl").
Proof.
  intros w self.
  apply (json_non_object_falls_back w self "GET" "ca" no_kwargs []
           Sample.list_response (PList [])); reflexivity.
Defined.

(** C4: a response of the primary channel with a status outside 200..299 is
    returned as the error outcome carrying that status and no process is
    run; when the primary channel raises, the fallback process is run exactly
    once and the outcome names the fallback channel ([curl]). *)
Theorem non_2xx_returned_exception_falls_back w self method endpoint kw t :
  py_truthy (has_certificates self) = true ->
  match session_request w t method (api_url self endpoint) kw with
  | Responded r =>
      (status_code r < 200 \/ 300 <= status_code r)%Z ->
      _make_request w self method endpoint kw t
      = (Ok (error_result self endpoint r), t ++ [primary_call self method endpoint kw])
      /\ classify (error_result self endpoint r)
         = (PStr "requests", PInt (status_code r), ERROR)
  | SessionRaised e =>
      exists d t',
        _make_request w self method endpoint kw t = (Ok (PDict d), t')
        /\ t' = t ++ [primary_call self method endpoint kw;
                      fallback_call w self method endpoint kw]
        /\ subprocess_calls t' = S (subprocess_calls t)
        /\ Dict.get "_method" d = Some (PStr "curl")
        /\ fst (fst (classify (PDict d))) = PStr "curl"
  end.
Proof.
  intros Hcert.
  destruct (session_request w t method (api_url self endpoint) kw) as [r | e] eqn:Hresp.
  - intros Hstatus. split; [|reflexivity].
    unfold_transport. rewrite Hcert, Hresp.
    destruct (Z.eqb (status_code r) 200) eqn:E; [apply Z.eqb_eq in E; lia|].
    reflexivity.
  - assert (Hraise : primary_attempt w self method endpoint kw t
                     = (Raise e, t ++ [primary_call self method endpoint kw])).
    { unfold primary_attempt, session_request_call, bind. now rewrite Hresp. }
    destruct (make_request_after_fallback w self method endpoint kw t Hcert) as [d [Hd Hm]].
    exists d. eexists. split; [|split; [reflexivity|split; [|split]]].
    + rewrite (make_request_primary_raises w self method endpoint kw t e Hcert Hraise).
      rewrite Hd. now rewrite <- app_assoc.
    + unfold subprocess_calls. rewrite filter_app. cbn. rewrite length_app. cbn. lia.
    + exact Hm.
    + cbn. unfold Dict.get_default. now rewrite Hm.
Qed.

Lemma non_2xx_returned_exception_falls_back_witness :
  (let w := Sample.refusing in
   let self := Sample.client w in
   _make_request w self "GET" "ca" no_kwargs []
   = (Ok (error_result self "ca" Sample.not_found_response),
      [primary_call self "GET" "ca" no_kwargs])
   /\ classify (error_result self "ca" Sample.not_found_response)
      = (PStr "requests", PInt 404, ERROR))
  /\ (let w := Sample.primary_down in
      let self := Sample.client w in
      exists d t',
        _make_request w self "GET" "ca" no_kwargs [] = (Ok (PDict d), t')
        /\ t' = [primary_call self "GET" "ca" no_kwargs;
                 fallback_call w self "GET" "ca" no_kwargs]
        /\ subprocess_calls t' = 1%nat
        /\ Dict.get "_method" d = Some (PStr "curl")
        /\ fst (fst (classify (PDict d))) = PStr "curl").
Proof.
  split.
  - intros w self.
    apply (non_2xx_returned_exception_falls_back w self "GET" "ca" no_kwargs []);
      [reflexivity | right; cbn; lia].
  - intros w self.
    apply (non_2xx_returned_exception_falls_back w self "GET" "ca" no_kwargs []).
    reflexivity.
Defined.

(** ** Dictionaries: keys kept and dropped *)

Lemma dict_has_pop_other k k' d :
  String.eqb k k' = false -> Dict.has k (Dict.pop k' d) = Dict.has k d.
Proof.
  intros Hk. unfold Dict.has. induction d as [|[k0 v0] d IH]; [reflexivity|].
  cbn [Dict.pop Dict.get].
  destruct (String.eqb k' k0) eqn:E0.
  - apply String.eqb_eq in E0. subst k0. rewrite Hk. exact IH.
  - cbn [Dict.get]. destruct (String.eqb k k0); [reflexivity | exact IH].
Qed.

Lemma dict_has_set_other k k' v d :
  String.eqb k k' = false -> Dict.has k (Dict.set k' v d) = Dict.has k d.
Proof.
  intros Hk. unfold Dict.has. induction d as [|[k0 v0] d IH].
  - cbn [Dict.set Dict.get]. now rewrite Hk.
  - cbn [Dict.set Dict.get].
    destruct (String.eqb k' k0) eqn:E0.
    + apply String.eqb_eq in E0. subst k0. cbn [Dict.get]. now rewrite Hk.
    + cbn [Dict.get]. destruct (String.eqb k k0); [reflexivity | exact IH].
Qed.

Lemma dict_get_set_same k v d : Dict.get k (Dict.set k v d) = Some v.
Proof.
  induction d as [|[k0 v0] d IH]; cbn [Dict.set Dict.get].
  - now rewrite String.eqb_refl.
  - destruct (String.eqb k k0) eqn:E; cbn [Dict.get].
    + now rewrite String.eqb_refl.
    + now rewrite E.
Qed.

Lemma dict_get_set_other k k' v d :
  String.eqb k k' = false -> Dict.get k (Dict.set k' v d) = Dict.get k d.
Proof.
  intros Hk. induction d as [|[k0 v0] d IH]; cbn [Dict.set Dict.get].
  - now rewrite Hk.
  - destruct (String.eqb k' k0) eqn:E0; cbn [Dict.get].
    + apply String.eqb_eq in E0. subst k0. now rewrite Hk.
    + destruct (String.eqb k k0); [reflexivity | exact IH].
Qed.

(** ** Classification *)

Lemma clean_up_keeps_no_error w d display :
  Dict.has "error" d = false ->
  clean_up w (PDict d) = Ok display ->
  has_error_message display = false.
Proof.
  intros Herr. unfold clean_up.
  set (d3 := Dict.pop "_url" (Dict.pop "_status_code" (Dict.pop "_method" d))).
  assert (H3 : Dict.has "error" d3 = false).
  { unfold d3. rewrite !dict_has_pop_other by reflexivity. exact Herr. }
  destruct (Dict.has "crl_data" d3).
  - unfold outcome_bind.
    destruct (py_len (Dict.get_default "crl_data" PNone d3)) as [n|e]; [|discriminate].
    destruct (if Z.ltb 50 n then _ else _) as [p|e]; [|discriminate].
    intros H. injection H as <-. cbn [has_error_message].
    rewrite !dict_has_set_other by reflexivity.
    rewrite dict_has_pop_other by reflexivity. exact H3.
  - intros H. injection H as <-. exact H3.
Qed.

Lemma format_result_no_success_with_error w name result :
  match format_result w name result with
  | Ok c => success_with_error c = false
  | Raise _ => True
  end.
Proof.
  unfold format_result.
  destruct (classify result) as [[method status_code] status_text] eqn:Hc.
  destruct (clean_up w result) as [display|e] eqn:Hd; cbn [outcome_bind]; [|exact I].
  destruct status_text; cbn [success_with_error]; try reflexivity.
  destruct result; try (cbn in Hd; injection Hd as <-; reflexivity).
  cbn [classify] in Hc.
  destruct (Dict.has "error" d) eqn:Herr.
  - discriminate Hc.
  - exact (clean_up_keeps_no_error w d display Herr Hd).
Qed.

(** ** Dispatch: argument lookup *)

Section CallTool.

Variable w : world.
Variable c : EJBCARestClient.
Variable arguments : pydict.

Let arg k := lift (Dict.getitem k arguments).
Let arg_get k default := Dict.get_default k default arguments.
Let some (m : M pyval) : M (option pyval) := result <- m ;; ret (Some result).

Lemma call_tool_get_certificate_by_serial :
  call_tool w c "get_certificate_by_serial" arguments
  = (serial_number <- arg "serial_number" ;;
     some (get_certificate_by_serial w c serial_number (arg_get "issuer_dn" PNone))).
Proof. reflexivity. Qed.

Lemma call_tool_get_certificate_status :
  call_tool w c "get_certificate_status" arguments
  = (issuer_dn <- arg "issuer_dn" ;;
     serial_number <- arg "serial_number" ;;
     some (get_certificate_status w c issuer_dn serial_number)).
Proof. reflexivity. Qed.

Lemma call_tool_revoke_certificate :
  call_tool w c "revoke_certificate" arguments
  = (issuer_dn <- arg "issuer_dn" ;;
     serial_number <- arg "serial_number" ;;
     some (revoke_certificate w c issuer_dn serial_number
             (arg_get "reason" (PStr "UNSPECIFIED")))).
Proof. reflexivity. Qed.

Lemma call_tool_get_latest_crl :
  call_tool w c "get_latest_crl" arguments
  = (issuer_dn <- arg "issuer_dn" ;;
     some (get_latest_crl w c issuer_dn
             (arg_get "delta_crl" (PBool false))
             (arg_get "crl_partition_index" (PInt 0)))).
Proof. reflexivity. Qed.

Lemma call_tool_create_crl :
  call_tool w c "create_crl" arguments
  = (issuer_dn <- arg "issuer_dn" ;;
     some (create_crl w c issuer_dn (arg_get "delta_crl" (PBool false)))).
Proof. reflexivity. Qed.

Lemma call_tool_get_crl_info :
  call_tool w c "get_crl_info" arguments
  = (issuer_dn <- arg "issuer_dn" ;; some (get_crl_info w c issuer_dn)).
Proof. reflexivity. Qed.

Lemma call_tool_get_ca_certificate :
  call_tool w c "get_ca_certificate" arguments
  = (ca_subject_dn <- arg "ca_subject_dn" ;; some (get_ca_certificate w c ca_subject_dn)).
Proof. reflexivity. Qed.

Lemma call_tool_get_ca_certificates :
  call_tool w c "get_ca_certificates" arguments
  = (ca_subject_dn <- arg "ca_subject_dn" ;; some (get_ca_certificates w c ca_subject_dn)).
Proof. reflexivity. Qed.

Lemma call_tool_enroll_certificate :
  call_tool w c "enroll_certificate" arguments
  = (certificate_request <- arg "certificate_request" ;;
     ca_name <- arg "ca_name" ;;
     some (enroll_certificate w c certificate_request ca_name
             (arg_get "certificate_profile" (PStr "ENDUSER"))
             (arg_get "end_entity_profile" (PStr "EMPTY"))
             (arg_get "username" PNone))).
Proof. reflexivity. Qed.

End CallTool.

Lemma bind_lift_ok {A B : Type} (a : A) (f : A -> M B) : bind (lift (Ok a)) f = f a.
Proof. reflexivity. Qed.

(** A lookup of a missing key stops the call before any transport. *)
Lemma failed_on_missing_first w c name arguments k t (rest : pyval -> M (option pyval)) :
  Dict.get k arguments = None ->
  call_tool w c name arguments = (x <- lift (Dict.getitem k arguments) ;; rest x) ->
  handle_call_tool w c name arguments t = (Failed name (exn_str (KeyError k)), t).
Proof.
  intros Hget Hcall. unfold handle_call_tool. rewrite Hcall.
  unfold bind, lift, Dict.getitem. now rewrite Hget.
Qed.

Lemma failed_on_missing_second w c name arguments k1 k2 t
    (rest : pyval -> pyval -> M (option pyval)) :
  Dict.get k2 arguments = None ->
  call_tool w c name arguments
  = (x <- lift (Dict.getitem k1 arguments) ;;
     y <- lift (Dict.getitem k2 arguments) ;; rest x y) ->
  exists missing,
    (missing = k1 \/ missing = k2)
    /\ handle_call_tool w c name arguments t = (Failed name (exn_str (KeyError missing)), t).
Proof.
  intros Hget Hcall. unfold handle_call_tool. rewrite Hcall.
  unfold bind, lift, Dict.getitem. rewrite Hget.
  destruct (Dict.get k1 arguments).
  - exists k2. split; [now right | reflexivity].
  - exists k1. split; [now left | reflexivity].
Qed.

(** C8: when a required argument of a tool is missing from the arguments,
    the reply is the ERROR text for the [KeyError] of a missing required
    argument, and the trace of transport calls is unchanged: no request of
    the session and no external process. *)
Theorem missing_required_argument_fails w ejbca_client name arguments k t :
  In k (required_arguments name) ->
  Dict.get k arguments = None ->
  exists missing,
    In missing (required_arguments name)
    /\ handle_call_tool w ejbca_client name arguments t
       = (Failed name (exn_str (KeyError missing)), t)
    /\ content_status (fst (handle_call_tool w ejbca_client name arguments t)) = Some ERROR
    /\ session_calls (snd (handle_call_tool w ejbca_client name arguments t))
       = session_calls t
    /\ subprocess_calls (snd (handle_call_tool w ejbca_client name arguments t))
       = subprocess_calls t.
Proof.
  intros Hin Hget.
  assert (H : exists missing,
             In missing (required_arguments name)
             /\ handle_call_tool w ejbca_client name arguments t
                = (Failed name (exn_str (KeyError missing)), t)).
  { unfold required_arguments in *.
    repeat match goal with
    | |- context [String.eqb name ?s] =>
        let E := fresh "E" in
        destruct (String.eqb name s) eqn:E;
        [apply String.eqb_eq in E; subst name|]
    end;
    repeat match type of Hin with
    | In _ (_ :: _) => destruct Hin as [<- | Hin]
    | In _ [] => destruct Hin
    end;
    try (eexists; split;
         [|eapply failed_on_missing_first; [exact Hget | reflexivity]];
         cbn; tauto);
    match goal with
    | |- exists _, _ /\ handle_call_tool _ _ ?n _ _ = _ =>
        edestruct (failed_on_missing_second w ejbca_client n arguments)
          as [missing [Hor Hfail]];
        [exact Hget | reflexivity |];
        exists missing; split; [destruct Hor as [-> | ->]; cbn; tauto | exact Hfail]
    end. }
  destruct H as [missing [Hm Hfail]].
  exists missing. rewrite Hfail. repeat split; assumption || reflexivity.
Qed.

Lemma missing_required_argument_fails_witness :
  let w := Sample.online in
  exists missing,
    In missing (required_arguments "revoke_certificate")
    /\ handle_call_tool w (Sample.client w) "revoke_certificate"
         [("issuer_dn", PStr "CN=Test CA")] []
       = (Failed "revoke_certificate" (exn_str (KeyError missing)), [])
    /\ content_status (fst (handle_call_tool w (Sample.client w) "revoke_certificate"
                              [("issuer_dn", PStr "CN=Test CA")] [])) = Some ERROR
    /\ session_calls (snd (handle_call_tool w (Sample.client w) "revoke_certificate"
                             [("issuer_dn", PStr "CN=Test CA")] [])) = session_calls []
    /\ subprocess_calls (snd (handle_call_tool w (Sample.client w) "revoke_certificate"
                                [("issuer_dn", PStr "CN=Test CA")] [])) = subprocess_calls [].
Proof.
  intros w.
  apply (missing_required_argument_fails w (Sample.client w) "revoke_certificate"
           [("issuer_dn", PStr "CN=Test CA")] "serial_number" []).
  - cbn. tauto.
  - reflexivity.
Defined.

(** ** Endpoint mapping *)

Lemma always_safe_not_slash c : always_safe c = true -> c <> "/"%char.
Proof. intros H ->. vm_compute in H. discriminate H. Qed.

Lemma hex2_no_slash c : ~ In "/"%char (list_ascii_of_string (hex2 true c)).
Proof.
  destruct c as [[] [] [] [] [] [] [] []]; vm_compute;
    intros [H | [H | H]]; (discriminate H || exact H).
Qed.

Lemma quote_no_slash s : ~ In "/"%char (list_ascii_of_string (quote s)).
Proof.
  induction s as [|c s IH]; cbn [quote list_ascii_of_string]; [intros []|].
  destruct (always_safe c) eqn:Hsafe; cbn [list_ascii_of_string].
  - intros [H | H]; [|exact (IH H)].
    exact (always_safe_not_slash c Hsafe H).
  - intros [H | H]; [discriminate H|].
    apply (hex2_no_slash c). unfold hex2 in *. cbn in H |- *.
    destruct H as [H | [H | H]]; [now left | now right; left | destruct (IH H)].
Qed.

(** C6: [get_certificate_by_serial] with a (non-empty) issuer DN requests
    [certificate/{quote(issuer_dn)}/{serial}], where the quoted DN keeps only
    the unreserved characters, so not even the slash; without an issuer DN it
    requests [certificate/serialnumber/{serial}]. The dispatcher passes the
    [issuer_dn] argument when present and [None] otherwise. *)
Theorem get_certificate_by_serial_path w serial issuer :
  issuer <> "" ->
  let by_issuer := {| req_method := "GET";
                      req_endpoint := "certificate/" ++ quote issuer ++ "/" ++ serial;
                      req_kwargs := no_kwargs |} in
  let by_serial := {| req_method := "GET";
                      req_endpoint := "certificate/serialnumber/" ++ serial;
                      req_kwargs := no_kwargs |} in
  get_certificate_by_serial_request w (PStr serial) (PStr issuer) = Ok by_issuer
  /\ get_certificate_by_serial_request w (PStr serial) PNone = Ok by_serial
  /\ ~ In "/"%char (list_ascii_of_string (quote issuer))
  /\ (forall c arguments,
        Dict.get "serial_number" arguments = Some (PStr serial) ->
        Dict.get "issuer_dn" arguments = Some (PStr issuer) ->
        call_tool w c "get_certificate_by_serial" arguments
        = (result <- send w c (Ok by_issuer) ;; ret (Some result)))
  /\ (forall c arguments,
        Dict.get "serial_number" arguments = Some (PStr serial) ->
        Dict.get "issuer_dn" arguments = None ->
        call_tool w c "get_certificate_by_serial" arguments
        = (result <- send w c (Ok by_serial) ;; ret (Some result))).
Proof.
  intros Hissuer by_issuer by_serial.
  assert (Htruthy : py_truthy (PStr issuer) = true).
  { cbn. destruct (String.eqb issuer "") eqn:E; [|reflexivity].
    apply String.eqb_eq in E. contradiction. }
  assert (H1 : get_certificate_by_serial_request w (PStr serial) (PStr issuer) = Ok by_issuer).
  { unfold get_certificate_by_serial_request. rewrite Htruthy. reflexivity. }
  split; [exact H1|]. split; [reflexivity|]. split; [apply quote_no_slash|].
  split; intros c arguments Hserial Hdn;
    rewrite call_tool_get_certificate_by_serial;
    unfold get_certificate_by_serial, Dict.getitem, Dict.get_default;
    rewrite Hserial, Hdn, bind_lift_ok; [rewrite H1|]; reflexivity.
Qed.

Lemma get_certificate_by_serial_path_witness :
  let w := Sample.online in
  get_certificate_by_serial_request w (PStr "1A2B3C") (PStr "CN=Test CA,O=Org")
  = Ok {| req_method := "GET";
          req_endpoint := "certificate/CN%3DTest%20CA%2CO%3DOrg/1A2B3C";
          req_kwargs := no_kwargs |}
  /\ get_certificate_by_serial_request w (PStr "1A2B3C") PNone
     = Ok {| req_method := "GET";
             req_endpoint := "certificate/serialnumber/1A2B3C";
             req_kwargs := no_kwargs |}
  /\ call_tool w (Sample.client w) "get_certificate_by_serial"
       [("serial_number", PStr "1A2B3C"); ("issuer_dn", PStr "CN=Test CA,O=Org")]
     = (result <- send w (Sample.client w)
                    (Ok {| req_method := "GET";
                           req_endpoint := "certificate/CN%3DTest%20CA%2CO%3DOrg/1A2B3C";
                           req_kwargs := no_kwargs |}) ;;
        ret (Some result))
  /\ call_tool w (Sample.client w) "get_certificate_by_serial"
       [("serial_number", PStr "1A2B3C")]
     = (result <- send w (Sample.client w)
                    (Ok {| req_method := "GET";
                           req_endpoint := "certificate/serialnumber/1A2B3C";
                           req_kwargs := no_kwargs |}) ;;
        ret (Some result)).
Proof.
  intros w.
  assert (Hissuer : "CN=Test CA,O=Org" <> "") by discriminate.
  pose proof (get_certificate_by_serial_path w "1A2B3C" "CN=Test CA,O=Org" Hissuer) as H.
  destruct H as [H1 [H2 [_ [H4 H5]]]].
  split; [exact H1|]. split; [exact H2|]. split.
  - apply (H4 (Sample.client w)); reflexivity.
  - apply (H5 (Sample.client w)); reflexivity.
Defined.

(** An empty issuer DN counts as none: the request goes by serial number. *)
Remark empty_issuer_is_omitted w serial :
  get_certificate_by_serial_request w (PStr serial) (PStr "")
  = get_certificate_by_serial_request w (PStr serial) PNone.
Proof. reflexivity. Qed.





Lemma int_nonzero_not_eq_zero p : p <> 0%Z -> py_eq_int (PInt p) 0 = false.
Proof. intros H. cbn. now apply Z.eqb_neq. Qed.

Lemma crl_params_partition_index w delta_crl p :
  p <> 0%Z ->
  Dict.get "crlPartitionIndex" (crl_params w delta_crl (PInt p)) = Some (PStr (int_str p)).
Proof.
  intros Hp. unfold crl_params. rewrite (int_nonzero_not_eq_zero p Hp). cbn [negb py_str].
  apply dict_get_set_same.
Qed.

(** C2, as the code has it. With the delta flag false and the partition
    index 0 the three CRL requests carry no query parameter. A non-zero
    partition index is sent as [crlPartitionIndex], whatever the delta flag,
    by [get_latest_crl] and by [get_crl] with a non-empty issuer DN. [get_crl]
    without an issuer DN requests [ca/crl] with no query at all, and
    [create_crl] takes no partition index: its query never holds one. *)
Theorem crl_query_parameters w issuer p delta_crl :
  issuer <> "" ->
  p <> 0%Z ->
  (query_of (get_latest_crl_request w (PStr issuer) (PBool false) (PInt 0)) = Some []
   /\ query_of (get_crl_request w (PStr issuer) (PBool false) (PInt 0)) = Some []
   /\ query_of (get_crl_request w PNone (PBool false) (PInt 0)) = Some []
   /\ query_of (create_crl_request (PStr issuer) (PBool false)) = Some [])
  /\ (exists q, query_of (get_latest_crl_request w (PStr issuer) delta_crl (PInt p)) = Some q
                /\ Dict.get "crlPartitionIndex" q = Some (PStr (int_str p)))
  /\ (exists q, query_of (get_crl_request w (PStr issuer) delta_crl (PInt p)) = Some q
                /\ Dict.get "crlPartitionIndex" q = Some (PStr (int_str p)))
  /\ get_crl_request w PNone delta_crl (PInt p)
     = Ok {| req_method := "GET"; req_endpoint := "ca/crl"; req_kwargs := no_kwargs |}
  /\ (exists q, query_of (create_crl_request (PStr issuer) delta_crl) = Some q
                /\ Dict.has "crlPartitionIndex" q = false).
Proof.
  intros Hissuer Hp.
  assert (Htruthy : py_truthy (PStr issuer) = true).
  { cbn. destruct (String.eqb issuer "") eqn:E; [|reflexivity].
    apply String.eqb_eq in E. contradiction. }
  split; [|split; [|split; [|split]]].
  - repeat split; try reflexivity.
    unfold get_crl_request. rewrite Htruthy. reflexivity.
  - eexists. split; [reflexivity|]. cbn [query_params req_kwargs with_params kw_params].
    now apply crl_params_partition_index.
  - unfold get_crl_request. rewrite Htruthy.
    eexists. split; [reflexivity|]. cbn [query_params req_kwargs with_params kw_params].
    now apply crl_params_partition_index.
  - reflexivity.
  - unfold create_crl_request. cbn [py_quote outcome_bind].
    eexists. split; [reflexivity|]. cbn [query_params req_kwargs with_params kw_params].
    destruct (py_truthy delta_crl); reflexivity.
Qed.

Lemma crl_query_parameters_witness :
  let w := Sample.online in
  (exists q, query_of (get_latest_crl_request w (PStr "CN=Test CA") (PBool true) (PInt 3))
             = Some q
             /\ Dict.get "crlPartitionIndex" q = Some (PStr (int_str 3)))
  /\ (exists q, query_of (get_crl_request w (PStr "CN=Test CA") (PBool true) (PInt 3))
                = Some q
                /\ Dict.get "crlPartitionIndex" q = Some (PStr (int_str 3))).
Proof.
  intros w.
  assert (Hissuer : "CN=Test CA" <> "") by discriminate.
  assert (Hp : 3%Z <> 0%Z) by discriminate.
  pose proof (crl_query_parameters w "CN=Test CA" 3 (PBool true) Hissuer Hp) as H.
  split; [exact (proj1 (proj2 H)) | exact (proj1 (proj2 (proj2 H)))].
Defined.

(** C2 as stated fails: a partition index of 3 given to [get_crl] without an
    issuer DN, or to [create_crl], does not reach the query of the request. *)
Lemma crl_partition_index_dropped :
  let w := Sample.online in
  let self := Sample.client w in
  query_of (get_crl_request w PNone (PBool false) (PInt 3)) = Some []
  /\ handle_call_tool w self "get_crl" [("crl_partition_index", PInt 3)] []
     = (Formatted SUCCESS "get_crl" (PStr "requests") (PInt 200) (PDict []),
        [SessionRequest "GET" "https://localhost:443/ejbca/ejbca-rest-api/v1/ca/crl"
           30 no_kwargs])
  /\ handle_call_tool w self "create_crl"
       [("issuer_dn", PStr "CN=Test CA"); ("crl_partition_index", PInt 3)] []
     = (Formatted SUCCESS "create_crl" (PStr "requests") (PInt 200) (PDict []),
        [SessionRequest "POST"
           "https://localhost:443/ejbca/ejbca-rest-api/v1/ca/CN%3DTest%20CA/createcrl"
           30 (with_params [])]).
Proof. intros w self. repeat split. Qed.

(** ** Missing credentials *)

Lemma init_without_files w base cert key :
  path_exists w cert = false \/ path_exists w key = false ->
  py_truthy (has_certificates (EJBCARestClient_init w base cert key)) = false.
Proof.
  intros H. cbn [EJBCARestClient_init has_certificates].
  destruct (py_truthy (PStr cert)) eqn:Ec; cbn [negb]; [|exact Ec].
  destruct (py_truthy (PStr key)) eqn:Ek; cbn [negb]; [|exact Ek].
  destruct (path_exists w cert); cbn [negb py_truthy]; [|reflexivity].
  destruct H as [H | H]; [discriminate H | exact H].
Qed.

Lemma make_request_without_certificates w self method endpoint kw t :
  py_truthy (has_certificates self) = false ->
  _make_request w self method endpoint kw t = (Ok no_certificates_error, t).
Proof. intros H. unfold_transport. rewrite H. reflexivity. Qed.

Lemma in_append_if (x y : pyval) cond l : In y l -> In y (append_if cond x l).
Proof.
  intros H. unfold append_if. destruct cond; [|exact H].
  apply in_or_app. now left.
Qed.

Lemma troubleshoot_without_certificates w self t :
  py_truthy (has_certificates self) = false ->
  exists diagnostics recommendations,
    troubleshoot_connection w self t
    = (Ok (PDict [("diagnostics", diagnostics);
                  ("api_tests",
                   PDict [("certificate_status", no_certificates_error);
                          ("ca_version", no_certificates_error);
                          ("ca_list", no_certificates_error)]);
                  ("recommendations", PList recommendations)]), t)
    /\ In configure_certificates recommendations.
Proof.
  intros H. unfold troubleshoot_connection, get_certificate_api_status, get_ca_version,
    get_ca_list, get_certificate_api_status_request, get_ca_version_request,
    get_ca_list_request, send.
  rewrite !bind_lift_ok. cbn [req_method req_endpoint req_kwargs].
  unfold bind at 1. rewrite make_request_without_certificates by exact H.
  unfold bind at 1. rewrite make_request_without_certificates by exact H.
  unfold bind at 1. rewrite make_request_without_certificates by exact H.
  rewrite H. cbn [negb].
  unfold no_certificates_error at 1 2. cbn [py_get]. rewrite !bind_lift_ok.
  unfold ret. refine (ex_intro _ _ (ex_intro _ _ (conj eq_refl _))).
  do 4 apply in_append_if. cbn. now left.
Qed.

(** C7, as the code has it. When the certificate file or the key file is
    missing, the client has no credentials: no request is attempted on either
    channel and every request yields the error outcome "No certificates
    available for authentication", which is classified ERROR (so the reply of
    a single-request tool is headed ERROR); the troubleshooting tool is headed
    WARNING and lists the recommendation to configure client certificates. *)
Theorem missing_credentials_outcome w base cert key :
  path_exists w cert = false \/ path_exists w key = false ->
  let self := EJBCARestClient_init w base cert key in
  py_truthy (has_certificates self) = false
  /\ (forall method endpoint kw t,
        _make_request w self method endpoint kw t = (Ok no_certificates_error, t))
  /\ classify no_certificates_error = (PStr "unknown", PStr "N/A", ERROR)
  /\ (forall arguments t,
        handle_call_tool w self "get_ca_list" arguments t
        = (Formatted ERROR "get_ca_list" (PStr "unknown") (PStr "N/A")
             no_certificates_error, t))
  /\ (forall arguments t,
        exists display recommendations,
          handle_call_tool w self "troubleshoot_connection" arguments t
          = (Formatted WARNING "troubleshoot_connection" (PStr "unknown") (PStr "N/A")
               (PDict display), t)
          /\ Dict.get "recommendations" display = Some (PList recommendations)
          /\ In configure_certificates recommendations).
Proof.
  intros Hfiles self.
  pose proof (init_without_files w base cert key Hfiles) as Hcert. fold self in Hcert.
  split; [exact Hcert|]. split; [|split; [reflexivity|split]].
  - intros. now apply make_request_without_certificates.
  - intros arguments t. unfold handle_call_tool.
    change (call_tool w self "get_ca_list" arguments)
      with (result <- get_ca_list w self ;; ret (Some result)).
    unfold get_ca_list, get_ca_list_request, send. rewrite bind_lift_ok.
    cbn [req_method req_endpoint req_kwargs].
    unfold bind at 2. unfold bind at 1.
    rewrite make_request_without_certificates by exact Hcert. reflexivity.
  - intros arguments t. unfold handle_call_tool.
    change (call_tool w self "troubleshoot_connection" arguments)
      with (result <- troubleshoot_connection w self ;; ret (Some result)).
    destruct (troubleshoot_without_certificates w self t Hcert) as [diag [recs [Hrun Hin]]].
    unfold bind at 2. unfold bind at 1. rewrite Hrun.
    eexists. exists recs. split; [reflexivity|]. split; [reflexivity | exact Hin].
Qed.

Lemma missing_credentials_outcome_witness :
  let w := Sample.no_files in
  let self := Sample.client w in
  py_truthy (has_certificates self) = false
  /\ handle_call_tool w self "get_ca_list" [] []
     = (Formatted ERROR "get_ca_list" (PStr "unknown") (PStr "N/A")
          no_certificates_error, []).
Proof.
  intros w self.
  assert (Hfiles : path_exists w "/etc/ejbca/client.pem" = false
                   \/ path_exists w "/etc/ejbca/client.key" = false)
    by (left; reflexivity).
  pose proof (missing_credentials_outcome w "https://localhost:443/"
                "/etc/ejbca/client.pem" "/etc/ejbca/client.key" Hfiles) as H.
  split; [exact (proj1 H) | exact (proj1 (proj2 (proj2 (proj2 H))) [] [])].
Defined.

(** C7 as stated fails: with no credential file on disk, listing the CAs is
    answered by a reply headed ERROR, for no other reason than the missing
    credentials, and no transport call is made. *)
Lemma missing_credentials_classified_error :
  let w := Sample.no_files in
  let self := Sample.client w in
  path_exists w (cert_path self) = false
  /\ path_exists w (key_path self) = false
  /\ handle_call_tool w self "get_ca_list" [] []
     = (Formatted ERROR "get_ca_list" (PStr "unknown") (PStr "N/A")
          (PDict [("error", PStr "No certificates available for authentication")]),
        [])
  /\ content_status (fst (handle_call_tool w self "get_ca_list" [] [])) = Some ERROR.
Proof. intros w self. repeat split. Qed.

(** * Further properties of the code *)

(** ** One request: channels, order and tags *)

Lemma primary_attempt_outcome w self method endpoint kw t :
  exists o,
    primary_attempt w self method endpoint kw t
    = (o, t ++ [primary_call self method endpoint kw])
    /\ match o with
       | Ok v => exists d, v = PDict d /\ Dict.get "_method" d = Some (PStr "requests")
       | Raise _ => True
       end.
Proof.
  unfold primary_attempt, session_request_call, bind, ret, lift.
  destruct (session_request w t method (api_url self endpoint) kw) as [r|e];
    [|eexists; split; [reflexivity | exact I]].
  destruct (Z.eqb (status_code r) 200).
  - destruct (json r) as [v|].
    + destruct v; try (eexists; split; [reflexivity | exact I]).
      eexists; split; [reflexivity|]. eexists; split; [reflexivity|].
      rewrite dict_get_set_other by reflexivity. apply dict_get_set_same.
    + destruct (String.prefix _ _);
        (eexists; split; [reflexivity|]; eexists; split; reflexivity).
  - eexists; split; [reflexivity|]. eexists; split; reflexivity.
Qed.

Lemma make_request_outcome w self method endpoint kw t :
  exists d u,
    _make_request w self method endpoint kw t
    = (Ok (PDict d), t ++ calls_of w self method endpoint kw u)
    /\ Dict.get "_method" d = tag_of u
    /\ (py_truthy (has_certificates self) = false <-> u = NoChannel).
Proof.
  destruct (py_truthy (has_certificates self)) eqn:Hcert.
  - destruct (primary_attempt_outcome w self method endpoint kw t) as [o [Hp Ho]].
    destruct o as [v|e].
    + destruct Ho as [d [-> Hm]]. exists d, PrimaryOnly.
      split; [|split; [exact Hm | split; discriminate]].
      unfold _make_request, try_except, bind at 1. rewrite Hcert.
      unfold bind at 1. rewrite Hp. reflexivity.
    + destruct (make_request_after_fallback w self method endpoint kw t Hcert)
        as [d [Hd Hm]].
      exists d, PrimaryThenFallback.
      split; [|split; [exact Hm | split; discriminate]].
      rewrite (make_request_primary_raises w self method endpoint kw t e Hcert Hp).
      rewrite Hd. cbn [calls_of]. now rewrite <- app_assoc.
  - exists [("error", PStr "No certificates available for authentication")], NoChannel.
    split; [|split; [reflexivity | split; reflexivity]].
    rewrite make_request_without_certificates by exact Hcert.
    cbn [calls_of]. rewrite app_nil_r. reflexivity.
Qed.

(** X1: [_make_request] never raises and always returns a dict. It adds to
    the trace nothing (no credentials), the session request alone, or the
    session request followed by one run of [curl], never anything else; and
    the [_method] entry of the outcome names the channel that produced it,
    whatever the body of the backend holds. *)
Theorem make_request_uses_channels_in_order w self method endpoint kw t :
  exists d u,
    _make_request w self method endpoint kw t
    = (Ok (PDict d), t ++ calls_of w self method endpoint kw u)
    /\ Dict.get "_method" d = tag_of u
    /\ (py_truthy (has_certificates self) = false <-> u = NoChannel)
    /\ (session_calls (calls_of w self method endpoint kw u) <= 1)%nat
    /\ (subprocess_calls (calls_of w self method endpoint kw u) <= 1)%nat.
Proof.
  destruct (make_request_outcome w self method endpoint kw t) as [d [u [H1 [H2 H3]]]].
  exists d, u. repeat split; try assumption; try apply H3;
    destruct u; cbn; lia.
Qed.

(** X2: on the primary channel every status other than 200, a 201 or a 204
    as well, gives the error outcome ["HTTP <status>"] with at most 500
    characters of the body; the fallback is not tried and the reply is headed
    ERROR. *)
Theorem status_other_than_200_is_error w self method endpoint kw t r :
  py_truthy (has_certificates self) = true ->
  session_request w t method (api_url self endpoint) kw = Responded r ->
  status_code r <> 200%Z ->
  _make_request w self method endpoint kw t
  = (Ok (error_result self endpoint r), t ++ [primary_call self method endpoint kw])
  /\ forall name,
       format_result w name (error_result self endpoint r)
       = Ok (Formatted ERROR name (PStr "requests") (PInt (status_code r))
               (PDict [("error", PStr ("HTTP " ++ int_str (status_code r)));
                       ("message", PStr (if py_truthy (PStr (text r))
                                         then str_prefix 500 (text r) else ""))])).
Proof.
  intros Hcert Hresp Hstatus. split; [|reflexivity].
  unfold_transport. rewrite Hcert, Hresp.
  destruct (Z.eqb (status_code r) 200) eqn:E; [apply Z.eqb_eq in E; contradiction|].
  reflexivity.
Qed.

Lemma status_other_than_200_is_error_witness :
  let w := Sample.creating in
  let self := Sample.client w in
  _make_request w self "POST" "ca/CN%3DTest%20CA/createcrl" (with_params []) []
  = (Ok (error_result self "ca/CN%3DTest%20CA/createcrl" Sample.created_response),
     [primary_call self "POST" "ca/CN%3DTest%20CA/createcrl" (with_params [])])
  /\ format_result w "create_crl"
       (error_result self "ca/CN%3DTest%20CA/createcrl" Sample.created_response)
     = Ok (Formatted ERROR "create_crl" (PStr "requests") (PInt 201)
             (PDict [("error", PStr "HTTP 201"); ("message", PStr "{}")])).
Proof.
  intros w self.
  assert (H := status_other_than_200_is_error w self "POST" "ca/CN%3DTest%20CA/createcrl"
                 (with_params []) [] Sample.created_response eq_refl eq_refl).
  assert (Hne : status_code Sample.created_response <> 200%Z) by discriminate.
  specialize (H Hne). split; [exact (proj1 H) | exact (proj2 H "create_crl")].
Defined.

(** X3: a 200 response whose body is not JSON and whose content type is not
    a CRL is kept as text: the outcome is [{"response": text, "success":
    True}], tagged with the primary channel, and the reply is headed
    SUCCESS. *)
Theorem undecodable_200_is_success_text w self method endpoint kw t r name :
  py_truthy (has_certificates self) = true ->
  session_request w t method (api_url self endpoint) kw = Responded r ->
  status_code r = 200%Z ->
  json r = None ->
  String.prefix "application/pkix-crl" (content_type_or_empty r) = false ->
  let raw := PDict [("response", PStr (text r));
                    ("success", PBool true);
                    ("_method", PStr "requests");
                    ("_status_code", PInt 200)] in
  _make_request w self method endpoint kw t
  = (Ok raw, t ++ [primary_call self method endpoint kw])
  /\ format_result w name raw
     = Ok (Formatted SUCCESS name (PStr "requests") (PInt 200)
             (PDict [("response", PStr (text r)); ("success", PBool true)])).
Proof.
  intros Hcert Hresp Hstatus Hjson Hct raw. split; [|reflexivity].
  unfold_transport. rewrite Hcert, Hresp, Hstatus, Hjson, Hct. reflexivity.
Qed.

Lemma undecodable_200_is_success_text_witness :
  let w := Sample.plain in
  let self := Sample.client w in
  let raw := PDict [("response", PStr "OK");
                    ("success", PBool true);
                    ("_method", PStr "requests");
                    ("_status_code", PInt 200)] in
  _make_request w self "GET" "certificate/status" no_kwargs []
  = (Ok raw, [primary_call self "GET" "certificate/status" no_kwargs])
  /\ format_result w "get_certificate_api_status" raw
     = Ok (Formatted SUCCESS "get_certificate_api_status" (PStr "requests") (PInt 200)
             (PDict [("response", PStr "OK"); ("success", PBool true)])).
Proof.
  intros w self raw.
  apply (undecodable_200_is_success_text w self "GET" "certificate/status" no_kwargs []
           Sample.text_response "get_certificate_api_status"); reflexivity.
Defined.

(** X4: a JSON object obtained through the fallback carries no status code
    of the backend: it is tagged [curl] and, unless the object itself holds an
    [error], a truthy [success] or a [_status_code] equal to 200, the reply is
    headed WARNING, where the same body on the primary channel is headed
    SUCCESS. *)
Theorem fallback_json_object_is_warning w self method endpoint data t p d name :
  py_truthy (has_certificates self) = true ->
  subprocess_run w t (curl_cmd w self method endpoint data) = Completed p ->
  returncode p = 0%Z ->
  stdout p <> "" ->
  json_loads w (stdout p) = Some (PDict d) ->
  error_indicator d = false ->
  success_indicator d = false ->
  status_200 d = false ->
  Dict.has "crl_data" d = false ->
  let raw := PDict (Dict.set "_method" (PStr "curl") d) in
  _curl_fallback w self method endpoint data t
  = (Ok raw, t ++ [SubprocessRun (curl_cmd w self method endpoint data) 30])
  /\ (exists display,
        format_result w name raw
        = Ok (Formatted WARNING name (PStr "curl")
                (Dict.get_default "_status_code" (PStr "N/A") d) display))
  /\ snd (classify (PDict (Dict.set "_status_code" (PInt 200)
                             (Dict.set "_method" (PStr "requests") d)))) = SUCCESS.
Proof.
  intros Hcert Hrun Hrc Hout Hloads Herr Hsucc H200 Hcrl raw.
  unfold error_indicator, success_indicator, status_200 in *.
  assert (Ht : py_truthy (PStr (stdout p)) = true).
  { cbn. destruct (String.eqb (stdout p) "") eqn:E; [|reflexivity].
    apply String.eqb_eq in E. contradiction. }
  split; [|split].
  - rewrite curl_fallback_runs_once by exact Hcert. cbv zeta.
    rewrite Hrun. unfold curl_result. rewrite Hrc, Ht, Hloads. reflexivity.
  - unfold format_result, raw. cbn [classify].
    rewrite dict_has_set_other by reflexivity. rewrite Herr.
    unfold Dict.get_default in *.
    rewrite (dict_get_set_other "success") by reflexivity.
    rewrite (dict_get_set_other "_status_code") by reflexivity.
    rewrite dict_get_set_same. rewrite Hsucc, H200. cbn [orb].
    unfold clean_up.
    rewrite !dict_has_pop_other by reflexivity.
    rewrite dict_has_set_other by reflexivity. rewrite Hcrl.
    cbn [outcome_bind]. eexists. reflexivity.
  - cbn [classify snd].
    rewrite !dict_has_set_other by reflexivity. rewrite Herr.
    unfold Dict.get_default.
    rewrite (dict_get_set_same "_status_code"). cbn [py_eq_int Z.eqb Pos.eqb].
    now rewrite orb_true_r.
Qed.

Lemma fallback_json_object_is_warning_witness :
  let w := Sample.fallback_json in
  let self := Sample.client w in
  _curl_fallback w self "GET" "ca" None []
  = (Ok (PDict [("_method", PStr "curl")]),
     [SubprocessRun (curl_cmd w self "GET" "ca" None) 30])
  /\ (exists display,
        format_result w "get_ca_list" (PDict [("_method", PStr "curl")])
        = Ok (Formatted WARNING "get_ca_list" (PStr "curl") (PStr "N/A") display))
  /\ snd (classify (PDict [("_method", PStr "requests"); ("_status_code", PInt 200)]))
     = SUCCESS.
Proof.
  intros w self.
  apply (fallback_json_object_is_warning w self "GET" "ca" None [] Sample.json_process []
           "get_ca_list"); reflexivity || discriminate.
Defined.

(** ** The fallback command *)



(** ** What the reply shows *)

Lemma dict_has_pop_same k d : Dict.has k (Dict.pop k d) = false.
Proof.
  unfold Dict.has. induction d as [|[k0 v0] d IH]; [reflexivity|].
  cbn [Dict.pop]. destruct (String.eqb k k0) eqn:E; [exact IH|].
  cbn [Dict.get]. now rewrite E.
Qed.

Lemma clean_up_drops_internal_keys w d display :
  clean_up w (PDict d) = Ok display ->
  exists d', display = PDict d'
             /\ forallb (fun k => negb (Dict.has k d')) internal_keys = true.
Proof.
  unfold clean_up.
  set (d3 := Dict.pop "_url" (Dict.pop "_status_code" (Dict.pop "_method" d))).
  assert (Hm : Dict.has "_method" d3 = false).
  { unfold d3. rewrite !dict_has_pop_other by reflexivity. apply dict_has_pop_same. }
  assert (Hs : Dict.has "_status_code" d3 = false).
  { unfold d3. rewrite dict_has_pop_other by reflexivity. apply dict_has_pop_same. }
  assert (Hu : Dict.has "_url" d3 = false) by apply dict_has_pop_same.
  destruct (Dict.has "crl_data" d3) eqn:Hc.
  - unfold outcome_bind.
    destruct (py_len (Dict.get_default "crl_data" PNone d3)) as [n|e]; [|discriminate].
    destruct (if Z.ltb 50 n then _ else _) as [p|e]; [|discriminate].
    intros H. injection H as <-. eexists. split; [reflexivity|].
    cbn [forallb internal_keys].
    rewrite !dict_has_set_other by reflexivity.
    rewrite !dict_has_pop_other by reflexivity.
    rewrite Hm, Hs, Hu, dict_has_pop_same. reflexivity.
  - intros H. injection H as <-. exists d3. split; [reflexivity|].
    cbn [forallb internal_keys]. now rewrite Hm, Hs, Hu, Hc.
Qed.

(** ** Tool names *)

Lemma never_none_some (m : M pyval) : never_none (result <- m ;; ret (Some result)).
Proof.
  intros t r t'. unfold bind, ret. destruct (m t) as [[v|e] t1]; intros [= <- _]; discriminate.
Qed.

Lemma never_none_after_lookup o (f : pyval -> M (option pyval)) :
  (forall x, never_none (f x)) -> never_none (x <- lift o ;; f x).
Proof.
  intros Hf t r t'. unfold bind, lift. destruct o as [x|e].
  - apply Hf.
  - intros [= <- _]. discriminate.
Qed.

Ltac eval_tool_name :=
  lazy beta iota zeta delta [call_tool String.eqb Ascii.eqb Bool.eqb].

Lemma listed_tool_is_dispatched w c name arguments :
  is_listed name = true -> never_none (call_tool w c name arguments).
Proof.
  unfold is_listed, tool_names, handle_list_tools.
  cbn [map tool_name existsb].
  repeat match goal with
  | |- context [String.eqb name ?s] =>
      let E := fresh "E" in
      destruct (String.eqb name s) eqn:E;
      [apply String.eqb_eq in E; subst name; intros _; eval_tool_name;
       repeat (apply never_none_after_lookup; intros ?); apply never_none_some
      | cbn [orb] ]
  end.
  discriminate.
Qed.

Lemma unlisted_tool_is_unknown w c name arguments t :
  is_listed name = false -> call_tool w c name arguments t = (Ok None, t).
Proof.
  unfold is_listed, tool_names, handle_list_tools.
  cbn [map tool_name existsb]. intros H.
  repeat (apply orb_false_elim in H; destruct H as [?E H]).
  unfold call_tool.
  repeat match goal with
         | E : String.eqb name _ = false |- _ => rewrite E; clear E
         end.
  reflexivity.
Qed.

(** The table of required arguments used above is the [required] list of
    the tool list. *)
Remark required_arguments_from_tool_list tl :
  In tl handle_list_tools -> required_arguments (tool_name tl) = tool_required tl.
Proof.
  unfold handle_list_tools. intros H.
  repeat (destruct H as [<- | H]; [reflexivity|]). destruct H.
Qed.

(** X7: a name is answered "Unknown tool" exactly when it is not one of the
    sixteen names of the tool list, and then no transport call is made: every
    tool that [handle_list_tools] announces has its branch in
    [handle_call_tool], and no other name has one. *)
Theorem unknown_tool_iff_not_listed w ejbca_client name arguments t :
  is_unknown_tool (fst (handle_call_tool w ejbca_client name arguments t))
  = negb (is_listed name)
  /\ (is_listed name = false ->
      handle_call_tool w ejbca_client name arguments t = (UnknownTool name, t)).
Proof.
  assert (Hun : is_listed name = false ->
                handle_call_tool w ejbca_client name arguments t = (UnknownTool name, t)).
  { intros H. unfold handle_call_tool, bind.
    now rewrite (unlisted_tool_is_unknown w ejbca_client name arguments t H). }
  split; [|exact Hun].
  destruct (is_listed name) eqn:Hl.
  - pose proof (listed_tool_is_dispatched w ejbca_client name arguments Hl t) as Hnn.
    unfold handle_call_tool, bind.
    destruct (call_tool w ejbca_client name arguments t) as [[[result|]|e] t'].
    + unfold lift, format_result.
      destruct (classify result) as [[method status_code] status_text].
      destruct (clean_up w result); reflexivity.
    + exfalso. exact (Hnn _ _ eq_refl eq_refl).
    + reflexivity.
  - now rewrite (Hun eq_refl).
Qed.

Lemma unknown_tool_iff_not_listed_witness :
  let w := Sample.online in
  handle_call_tool w (Sample.client w) "delete_everything" [] []
  = (UnknownTool "delete_everything", []).
Proof.
  intros w.
  apply (proj2 (unknown_tool_iff_not_listed w (Sample.client w) "delete_everything" [] [])).
  reflexivity.
Defined.

(** ** Arguments of the wrong type *)

Lemma py_quote_refuses v : is_text v = false -> exists msg, py_quote v = Raise (TypeError msg).
Proof. destruct v; try discriminate; intros _; eexists; reflexivity. Qed.

Ltac fail_on_quote Hq :=
  unfold handle_call_tool, bind, lift, ret, Dict.getitem, Dict.get_default,
    get_certificate_status, revoke_certificate, get_latest_crl, create_crl,
    get_crl_info, get_ca_certificate, get_ca_certificates, send,
    get_certificate_status_request, revoke_certificate_request,
    get_latest_crl_request, create_crl_request, get_crl_info_request,
    get_ca_certificate_request, get_ca_certificates_request, outcome_bind;
  rewrite ?Hq.

(** X8: for the seven tools that always quote a distinguished name, a DN
    argument that is present but is neither a [str] nor [bytes] (a number, a
    boolean, [null], a list, an object) makes [urllib.parse.quote] raise; the
    reply is the ERROR "Failed to execute" text and no transport call is
    made. *)
Theorem non_text_dn_fails_before_transport w ejbca_client name arguments k v t :
  dn_argument name = Some k ->
  Dict.get k arguments = Some v ->
  is_text v = false ->
  exists msg,
    handle_call_tool w ejbca_client name arguments t = (Failed name msg, t).
Proof.
  intros Hdn Hget Htext.
  destruct (py_quote_refuses v Htext) as [msg Hq].
  unfold dn_argument in Hdn.
  repeat match type of Hdn with
  | context [String.eqb name ?s] =>
      let E := fresh "E" in
      destruct (String.eqb name s) eqn:E;
      [apply String.eqb_eq in E; subst name; injection Hdn as <-|]
  end; try discriminate Hdn.
  - unfold handle_call_tool. rewrite call_tool_get_certificate_status.
    fail_on_quote Hq. rewrite Hget.
    destruct (Dict.get "serial_number" arguments); rewrite ?Hq; eexists; reflexivity.
  - unfold handle_call_tool. rewrite call_tool_revoke_certificate.
    fail_on_quote Hq. rewrite Hget.
    destruct (Dict.get "serial_number" arguments); rewrite ?Hq; eexists; reflexivity.
  - unfold handle_call_tool. rewrite call_tool_get_latest_crl.
    fail_on_quote Hq. rewrite Hget, Hq. eexists; reflexivity.
  - unfold handle_call_tool. rewrite call_tool_create_crl.
    fail_on_quote Hq. rewrite Hget, Hq. eexists; reflexivity.
  - unfold handle_call_tool. rewrite call_tool_get_crl_info.
    fail_on_quote Hq. rewrite Hget, Hq. eexists; reflexivity.
  - unfold handle_call_tool. rewrite call_tool_get_ca_certificate.
    fail_on_quote Hq. rewrite Hget, Hq. eexists; reflexivity.
  - unfold handle_call_tool. rewrite call_tool_get_ca_certificates.
    fail_on_quote Hq. rewrite Hget, Hq. eexists; reflexivity.
Qed.

Lemma non_text_dn_fails_before_transport_witness :
  let w := Sample.online in
  exists msg,
    handle_call_tool w (Sample.client w) "get_crl_info" [("issuer_dn", PInt 7)] []
    = (Failed "get_crl_info" msg, []).
Proof.
  intros w.
  apply (non_text_dn_fails_before_transport w (Sample.client w) "get_crl_info"
           [("issuer_dn", PInt 7)] "issuer_dn" (PInt 7) []); reflexivity.
Defined.

(** ** Search criteria and enrollment *)

Lemma copy_argument_get_same arguments arg key criteria :
  Dict.get key (copy_argument arguments arg key criteria)
  = match Dict.get arg arguments with
    | Some v => Some v
    | None => Dict.get key criteria
    end.
Proof.
  unfold copy_argument. destruct (Dict.get arg arguments); [|reflexivity].
  apply dict_get_set_same.
Qed.

Lemma copy_argument_get_other arguments arg key criteria k :
  String.eqb k key = false ->
  Dict.get k (copy_argument arguments arg key criteria) = Dict.get k criteria.
Proof.
  intros Hk. unfold copy_argument. destruct (Dict.get arg arguments); [|reflexivity].
  now apply dict_get_set_other.
Qed.

(** X9: [search_certificates] sends GET [certificate/search] whose query
    holds each supplied argument under its backend name ([query],
    [max_results] as [maxResults], [subject_dn] as [subjectDN], [issuer_dn] as
    [issuerDN]) and nothing else; an argument that is not supplied is not
    sent, so the default 10 that the schema documents for [max_results] is
    never filled in. *)
Theorem search_forwards_supplied_criteria w ejbca_client arguments :
  exists criteria,
    call_tool w ejbca_client "search_certificates" arguments
    = (result <- _make_request w ejbca_client "GET" "certificate/search"
                   (with_params criteria) ;;
       ret (Some result))
    /\ Dict.get "query" criteria = Dict.get "query" arguments
    /\ Dict.get "maxResults" criteria = Dict.get "max_results" arguments
    /\ Dict.get "subjectDN" criteria = Dict.get "subject_dn" arguments
    /\ Dict.get "issuerDN" criteria = Dict.get "issuer_dn" arguments
    /\ forall k,
         existsb (String.eqb k) ["query"; "maxResults"; "subjectDN"; "issuerDN"] = false ->
         Dict.get k criteria = None.
Proof.
  eexists. split; [reflexivity|].
  split; [|split; [|split; [|split]]].
  - repeat (rewrite copy_argument_get_same
            || rewrite copy_argument_get_other by reflexivity).
    now destruct (Dict.get "query" arguments).
  - repeat (rewrite copy_argument_get_same
            || rewrite copy_argument_get_other by reflexivity).
    now destruct (Dict.get "max_results" arguments).
  - repeat (rewrite copy_argument_get_same
            || rewrite copy_argument_get_other by reflexivity).
    now destruct (Dict.get "subject_dn" arguments).
  - repeat (rewrite copy_argument_get_same
            || rewrite copy_argument_get_other by reflexivity).
    now destruct (Dict.get "issuer_dn" arguments).
  - intros k Hk. cbn [existsb] in Hk.
    repeat (apply orb_false_elim in Hk; destruct Hk as [?E Hk]).
    rewrite !copy_argument_get_other by assumption. reflexivity.
Qed.

Lemma search_forwards_supplied_criteria_witness :
  let w := Sample.online in
  handle_call_tool w (Sample.client w) "search_certificates"
    [("query", PStr "CN=web"); ("limit", PInt 5)] []
  = (Formatted SUCCESS "search_certificates" (PStr "requests") (PInt 200) (PDict []),
     [primary_call (Sample.client w) "GET" "certificate/search"
        (with_params [("query", PStr "CN=web")])])
  /\ exists criteria,
       call_tool w (Sample.client w) "search_certificates"
         [("query", PStr "CN=web"); ("limit", PInt 5)]
       = (result <- _make_request w (Sample.client w) "GET" "certificate/search"
                      (with_params criteria) ;;
          ret (Some result))
       /\ Dict.get "limit" criteria = None.
Proof.
  intros w. split; [reflexivity|].
  destruct (search_forwards_supplied_criteria w (Sample.client w)
              [("query", PStr "CN=web"); ("limit", PInt 5)])
    as [criteria [H1 [_ [_ [_ [_ H6]]]]]].
  exists criteria. split; [exact H1 | apply H6; reflexivity].
Defined.

(** X10: the enrollment request is POST [certificate/enroll] with a JSON body
    of exactly six entries and no query; the user name it sends is never
    empty: a supplied non-empty name is kept, a missing or empty one is
    replaced by [mcp_user_] followed by the time stamp; the password is the
    fixed placeholder. *)
Theorem enrollment_request_body
    w certificate_request ca_name certificate_profile end_entity_profile username :
  exists name,
    enroll_certificate_request w certificate_request ca_name certificate_profile
      end_entity_profile username
    = Ok {| req_method := "POST";
            req_endpoint := "certificate/enroll";
            req_kwargs := with_json
                            [("certificateRequest", certificate_request);
                             ("certificateAuthorityName", ca_name);
                             ("certificateProfileName", certificate_profile);
                             ("endEntityProfileName", end_entity_profile);
                             ("username", name);
                             ("password", PStr "mcp_temp_password")] |}
    /\ py_truthy name = true
    /\ (py_truthy username = true -> name = username)
    /\ (py_truthy username = false -> name = PStr ("mcp_user_" ++ now_stamp w)).
Proof.
  unfold enroll_certificate_request.
  destruct (py_truthy username) eqn:Hu; cbn [negb].
  - exists username. repeat split; try assumption; discriminate.
  - eexists. split; [reflexivity|]. repeat split; discriminate.
Qed.

Lemma enrollment_request_body_witness :
  let w := Sample.online in
  exists name,
    enroll_certificate_request w (PStr "CSR") (PStr "ManagementCA") (PStr "ENDUSER")
      (PStr "EMPTY") (PStr "")
    = Ok {| req_method := "POST";
            req_endpoint := "certificate/enroll";
            req_kwargs := with_json
                            [("certificateRequest", PStr "CSR");
                             ("certificateAuthorityName", PStr "ManagementCA");
                             ("certificateProfileName", PStr "ENDUSER");
                             ("endEntityProfileName", PStr "EMPTY");
                             ("username", name);
                             ("password", PStr "mcp_temp_password")] |}
    /\ name = PStr "mcp_user_20240101_120000".
Proof.
  intros w.
  destruct (enrollment_request_body w (PStr "CSR") (PStr "ManagementCA") (PStr "ENDUSER")
              (PStr "EMPTY") (PStr "")) as [name [H1 [_ [_ H4]]]].
  exists name. split; [exact H1 | exact (H4 eq_refl)].
Defined.

(** ** The diagnostic tools *)

Lemma session_calls_app t1 t2 :
  session_calls (t1 ++ t2) = (session_calls t1 + session_calls t2)%nat.
Proof. unfold session_calls. now rewrite filter_app, length_app. Qed.

Lemma subprocess_calls_app t1 t2 :
  subprocess_calls (t1 ++ t2) = (subprocess_calls t1 + subprocess_calls t2)%nat.
Proof. unfold subprocess_calls. now rewrite filter_app, length_app. Qed.

(** One request, as the diagnostic tools see it: a dict comes back and the
    trace grows by at most one call on each channel. *)
Lemma make_request_bounded w self method endpoint kw t :
  exists d extra,
    _make_request w self method endpoint kw t = (Ok (PDict d), t ++ extra)
    /\ (session_calls extra <= 1)%nat
    /\ (subprocess_calls extra <= 1)%nat.
Proof.
  destruct (make_request_outcome w self method endpoint kw t) as [d [u [H _]]].
  exists d, (calls_of w self method endpoint kw u).
  split; [exact H|]. destruct u; cbn; lia.
Qed.

Lemma test_connection_runs w self t :
  exists health ca extra,
    test_ejbca_connection w self t
    = (Ok (PDict [("connection_test", PStr "completed");
                  ("certificate_api_status", PDict health);
                  ("ca_version", PDict ca);
                  ("certificates_available", has_certificates self);
                  ("base_url", PStr (base_url self))]), t ++ extra)
    /\ (session_calls extra <= 2)%nat
    /\ (subprocess_calls extra <= 2)%nat.
Proof.
  unfold test_ejbca_connection, get_certificate_api_status, get_ca_version,
    get_certificate_api_status_request, get_ca_version_request, send.
  rewrite !bind_lift_ok. cbn [req_method req_endpoint req_kwargs].
  destruct (make_request_bounded w self "GET" "certificate/status" no_kwargs t)
    as [d1 [e1 [H1 [S1 P1]]]].
  destruct (make_request_bounded w self "GET" "ca/version" no_kwargs (t ++ e1))
    as [d2 [e2 [H2 [S2 P2]]]].
  exists d1, d2, (e1 ++ e2).
  unfold bind at 1. rewrite H1. unfold bind at 1. rewrite H2.
  unfold ret. rewrite <- app_assoc.
  split; [reflexivity|]. rewrite session_calls_app, subprocess_calls_app. lia.
Qed.

Lemma troubleshoot_runs w self t :
  exists diagnostics health ca ca_list recommendations extra,
    troubleshoot_connection w self t
    = (Ok (PDict [("diagnostics", diagnostics);
                  ("api_tests",
                   PDict [("certificate_status", PDict health);
                          ("ca_version", PDict ca);
                          ("ca_list", PDict ca_list)]);
                  ("recommendations", PList recommendations)]), t ++ extra)
    /\ (session_calls extra <= 3)%nat
    /\ (subprocess_calls extra <= 3)%nat.
Proof.
  unfold troubleshoot_connection, get_certificate_api_status, get_ca_version,
    get_ca_list, get_certificate_api_status_request, get_ca_version_request,
    get_ca_list_request, send.
  rewrite !bind_lift_ok. cbn [req_method req_endpoint req_kwargs].
  destruct (make_request_bounded w self "GET" "certificate/status" no_kwargs t)
    as [d1 [e1 [H1 [S1 P1]]]].
  destruct (make_request_bounded w self "GET" "ca/version" no_kwargs (t ++ e1))
    as [d2 [e2 [H2 [S2 P2]]]].
  destruct (make_request_bounded w self "GET" "ca" no_kwargs ((t ++ e1) ++ e2))
    as [d3 [e3 [H3 [S3 P3]]]].
  unfold bind at 1. rewrite H1. unfold bind at 1. rewrite H2.
  unfold bind at 1. rewrite H3.
  cbn [py_get]. rewrite !bind_lift_ok. unfold ret.
  do 5 eexists. exists (e1 ++ e2 ++ e3).
  rewrite <- !app_assoc.
  split; [reflexivity|]. rewrite !session_calls_app, !subprocess_calls_app. lia.
Qed.

(** X11: the two diagnostic tools never fail and are always headed WARNING,
    with method [unknown] and status [N/A], even when every probe succeeds:
    their result has no [error], [success] or [_status_code] entry of its
    own. The connection test makes at most two requests of the session and
    two runs of [curl], the troubleshooting at most three of each. *)
Theorem diagnostics_are_always_warning w ejbca_client arguments t :
  (exists display extra,
     handle_call_tool w ejbca_client "test_ejbca_connection" arguments t
     = (Formatted WARNING "test_ejbca_connection" (PStr "unknown") (PStr "N/A")
          (PDict display), t ++ extra)
     /\ Dict.get "certificates_available" display = Some (has_certificates ejbca_client)
     /\ (session_calls extra <= 2)%nat
     /\ (subprocess_calls extra <= 2)%nat)
  /\ (exists display extra,
        handle_call_tool w ejbca_client "troubleshoot_connection" arguments t
        = (Formatted WARNING "troubleshoot_connection" (PStr "unknown") (PStr "N/A")
             (PDict display), t ++ extra)
        /\ Dict.has "recommendations" display = true
        /\ (session_calls extra <= 3)%nat
        /\ (subprocess_calls extra <= 3)%nat).
Proof.
  split.
  - destruct (test_connection_runs w ejbca_client t) as [h [c [extra [Hrun [Hs Hp]]]]].
    unfold handle_call_tool.
    change (call_tool w ejbca_client "test_ejbca_connection" arguments)
      with (result <- test_ejbca_connection w ejbca_client ;; ret (Some result)).
    unfold bind at 2. unfold bind at 1. rewrite Hrun.
    eexists. exists extra. split; [reflexivity|]. split; [reflexivity|]. now split.
  - destruct (troubleshoot_runs w ejbca_client t)
      as [dg [h [c [l [recs [extra [Hrun [Hs Hp]]]]]]]].
    unfold handle_call_tool.
    change (call_tool w ejbca_client "troubleshoot_connection" arguments)
      with (result <- troubleshoot_connection w ejbca_client ;; ret (Some result)).
    unfold bind at 2. unfold bind at 1. rewrite Hrun.
    eexists. exists extra. split; [reflexivity|]. split; [reflexivity|]. now split.
Qed.

(** ** Documented defaults *)

Ltac default_is_applied Hnone :=
  unfold handle_call_tool; f_equal;
  eval_tool_name; unfold Dict.getitem, Dict.get_default;
  rewrite !dict_get_set_same, ?Hnone;
  rewrite ?dict_get_set_other by reflexivity;
  reflexivity.

(** X12: for every property of the tool list that documents a default,
    [max_results] apart, leaving the argument out is the same call as passing
    the documented default: [reason] UNSPECIFIED, [delta_crl] false,
    [crl_partition_index] 0, [certificate_profile] ENDUSER and
    [end_entity_profile] EMPTY. *)
Theorem documented_default_is_applied w ejbca_client tl p default arguments t :
  In tl handle_list_tools ->
  In p (tool_properties tl) ->
  prop_default p = Some default ->
  prop_name p <> "max_results" ->
  Dict.get (prop_name p) arguments = None ->
  handle_call_tool w ejbca_client (tool_name tl)
    (Dict.set (prop_name p) default arguments) t
  = handle_call_tool w ejbca_client (tool_name tl) arguments t.
Proof.
  intros Htool Hprop Hdefault Hname Hnone.
  unfold handle_list_tools in Htool.
  repeat (destruct Htool as [<- | Htool];
          [cbn [tool_properties] in Hprop;
           repeat (destruct Hprop as [<- | Hprop];
                   [cbn in Hdefault; try discriminate Hdefault;
                    injection Hdefault as <-;
                    cbn [prop_name prop_with_default tool_name] in *|]);
           try destruct Hprop|]);
    try destruct Htool;
    try (exfalso; apply Hname; reflexivity);
    default_is_applied Hnone.
Qed.

Lemma documented_default_is_applied_witness :
  let w := Sample.online in
  handle_call_tool w (Sample.client w) "revoke_certificate"
    (Dict.set "reason" (PStr "UNSPECIFIED")
       [("issuer_dn", PStr "CN=Test CA"); ("serial_number", PStr "1A2B3C")]) []
  = handle_call_tool w (Sample.client w) "revoke_certificate"
      [("issuer_dn", PStr "CN=Test CA"); ("serial_number", PStr "1A2B3C")] [].
Proof.
  intros w.
  apply (documented_default_is_applied w (Sample.client w)
           {| tool_name := "revoke_certificate";
              tool_properties := [prop "issuer_dn" JString; prop "serial_number" JString;
                                  prop_with_default "reason" JString (PStr "UNSPECIFIED")];
              tool_required := ["issuer_dn"; "serial_number"] |}
           (prop_with_default "reason" JString (PStr "UNSPECIFIED"))
           (PStr "UNSPECIFIED")).
  - cbn. tauto.
  - cbn. tauto.
  - reflexivity.
  - discriminate.
  - reflexivity.
Defined.

(** ** Construction of the client *)

Lemma lstrip_slash_split l :
  exists n, l = repeat "/"%char n ++ lstrip_slash l
            /\ match lstrip_slash l with
               | c :: _ => Ascii.eqb c "/" = false
               | [] => True
               end.
Proof.
  induction l as [|c l [n [Hl Hh]]].
  - exists 0%nat. split; [reflexivity | exact I].
  - cbn [lstrip_slash]. destruct (Ascii.eqb c "/") eqn:E.
    + apply Ascii.eqb_eq in E. subst c. exists (S n). split; [|exact Hh].
      cbn [repeat app]. now rewrite <- Hl.
    + exists 0%nat. split; [reflexivity | exact E].
Qed.

Lemma string_of_list_ascii_app l1 l2 :
  string_of_list_ascii (l1 ++ l2)
  = (string_of_list_ascii l1 ++ string_of_list_ascii l2)%string.
Proof. induction l1 as [|c l1 IH]; cbn; [reflexivity | now rewrite IH]. Qed.

Lemma rev_repeat_slash n : rev (repeat "/"%char n) = repeat "/"%char n.
Proof.
  induction n as [|n IH]; [reflexivity|].
  cbn [repeat rev]. rewrite IH. clear IH.
  induction n as [|n IH]; [reflexivity|]. cbn [repeat app]. now rewrite IH.
Qed.

Lemma rstrip_slash_split s :
  ends_with_slash (rstrip_slash s) = false
  /\ exists n, s = (rstrip_slash s ++ string_of_list_ascii (repeat "/"%char n))%string.
Proof.
  unfold rstrip_slash, ends_with_slash.
  destruct (lstrip_slash_split (rev (list_ascii_of_string s))) as [n [Hl Hh]].
  rewrite list_ascii_of_string_of_list_ascii, rev_involutive.
  split.
  - destruct (lstrip_slash (rev (list_ascii_of_string s))); [reflexivity | exact Hh].
  - exists n. rewrite <- string_of_list_ascii_app.
    rewrite <- (rev_repeat_slash n), <- rev_app_distr, <- Hl, rev_involutive.
    now rewrite string_of_list_ascii_of_string.
Qed.

(** X13: the client that [__init__] builds has credentials exactly when both
    paths are non-empty and both files exist; its base URL is the given one
    less its trailing slashes, so a request URL never has a doubled slash at
    the join with the fixed API prefix. *)
Theorem client_construction w base cert key :
  let self := EJBCARestClient_init w base cert key in
  py_truthy (has_certificates self)
  = (negb (String.eqb cert "") && negb (String.eqb key "")
     && path_exists w cert && path_exists w key)%bool
  /\ ends_with_slash (base_url self) = false
  /\ (exists n, base = (base_url self ++ string_of_list_ascii (repeat "/"%char n))%string)
  /\ cert_path self = cert
  /\ key_path self = key.
Proof.
  intros self. split; [|split; [|split; [|split; reflexivity]]].
  - cbn [self EJBCARestClient_init has_certificates py_truthy].
    destruct (String.eqb cert "") eqn:Ec; cbn [negb andb py_truthy]; [now rewrite Ec|].
    destruct (String.eqb key "") eqn:Ek; cbn [negb andb py_truthy]; [now rewrite Ek|].
    destruct (path_exists w cert); reflexivity.
  - apply rstrip_slash_split.
  - apply rstrip_slash_split.
Qed.

(** ** Distinguished names in request paths *)

Lemma unquote_plain c s :
  Ascii.eqb c "%" = false -> unquote (String c s) = String c (unquote s).
Proof.
  intros Hc. destruct s as [|h [|l s2]]; cbn [unquote]; try reflexivity.
  now rewrite Hc.
Qed.

Lemma unquote_escape c s :
  unquote (String "%" (hex2 true c ++ s)) = String c (unquote s).
Proof. destruct c as [[] [] [] [] [] [] [] []]; reflexivity. Qed.

Lemma always_safe_not_percent c : always_safe c = true -> Ascii.eqb c "%" = false.
Proof.
  intros H. destruct (Ascii.eqb c "%") eqn:E; [|reflexivity].
  apply Ascii.eqb_eq in E. subst c. vm_compute in H. discriminate H.
Qed.

Lemma unquote_quote s : unquote (quote s) = s.
Proof.
  induction s as [|c s IH]; [reflexivity|].
  cbn [quote]. destruct (always_safe c) eqn:Hsafe.
  - rewrite unquote_plain by now apply always_safe_not_percent. now rewrite IH.
  - rewrite unquote_escape. now rewrite IH.
Qed.

Lemma quote_injective a b : quote a = quote b -> a = b.
Proof.
  intros H. rewrite <- (unquote_quote a), <- (unquote_quote b). now rewrite H.
Qed.

Lemma list_ascii_of_string_app a b :
  list_ascii_of_string (a ++ b) = list_ascii_of_string a ++ list_ascii_of_string b.
Proof. induction a as [|c a IH]; cbn; [reflexivity | now rewrite IH]. Qed.

Lemma string_append_inv_tail a b s : (a ++ s = b ++ s)%string -> a = b.
Proof.
  intros H. apply (f_equal list_ascii_of_string) in H.
  rewrite !list_ascii_of_string_app in H. apply app_inv_tail in H.
  rewrite <- (string_of_list_ascii_of_string a), <- (string_of_list_ascii_of_string b).
  now rewrite H.
Qed.

Lemma split_at_slash a : forall b r r',
  ~ In "/"%char (list_ascii_of_string a) ->
  ~ In "/"%char (list_ascii_of_string b) ->
  (a ++ String "/" r = b ++ String "/" r')%string ->
  a = b /\ r = r'.
Proof.
  induction a as [|c a IH]; intros [|d b] r r' Ha Hb H; cbn in *.
  - injection H as <-. now split.
  - injection H as <- _. exfalso. apply Hb. now left.
  - injection H as -> _. exfalso. apply Ha. now left.
  - injection H as <- H.
    destruct (IH b r r') as [-> ->]; [tauto | tauto | exact H | now split].
Qed.

(** X14: percent-encoding loses nothing: the DN is recovered from its quoted
    form, so two different DNs never give the same request. For the requests
    that also carry a serial number, the quoted DN holds no slash, so the
    pair of DN and serial number is determined by the path. *)
Theorem distinct_names_give_distinct_requests w a b sa sb :
  unquote (quote a) = a
  /\ (get_crl_info_request (PStr a) = get_crl_info_request (PStr b) -> a = b)
  /\ (get_ca_certificate_request (PStr a) = get_ca_certificate_request (PStr b) -> a = b)
  /\ (get_ca_certificates_request (PStr a) = get_ca_certificates_request (PStr b) -> a = b)
  /\ (get_latest_crl_request w (PStr a) (PBool false) (PInt 0)
      = get_latest_crl_request w (PStr b) (PBool false) (PInt 0) -> a = b)
  /\ (get_certificate_status_request w (PStr a) (PStr sa)
      = get_certificate_status_request w (PStr b) (PStr sb) -> a = b /\ sa = sb)
  /\ (revoke_certificate_request w (PStr a) (PStr sa) (PStr "UNSPECIFIED")
      = revoke_certificate_request w (PStr b) (PStr sb) (PStr "UNSPECIFIED")
      -> a = b /\ sa = sb).
Proof.
  split; [apply unquote_quote|].
  split; [|split; [|split; [|split; [|split]]]].
  - intros H. injection H as H. apply string_append_inv_tail in H.
    now apply quote_injective.
  - intros H. injection H as H. apply string_append_inv_tail in H.
    now apply quote_injective.
  - intros H. injection H as H. apply string_append_inv_tail in H.
    now apply quote_injective.
  - intros H. injection H as H. apply string_append_inv_tail in H.
    now apply quote_injective.
  - intros H. injection H as H.
    apply split_at_slash in H; try apply quote_no_slash.
    destruct H as [Hq Hs]. apply string_append_inv_tail in Hs.
    split; [now apply quote_injective | exact Hs].
  - intros H. injection H as H.
    apply split_at_slash in H; try apply quote_no_slash.
    destruct H as [Hq Hs]. apply string_append_inv_tail in Hs.
    split; [now apply quote_injective | exact Hs].
Qed.

Lemma distinct_names_give_distinct_requests_witness :
  let w := Sample.online in
  unquote (quote "CN=Test CA,O=Org") = "CN=Test CA,O=Org"
  /\ "CN=Test CA" = "CN=Test CA" /\ "1A2B3C" = "1A2B3C".
Proof.
  intros w.
  pose proof (distinct_names_give_distinct_requests w "CN=Test CA,O=Org" "" "" "") as H1.
  pose proof (distinct_names_give_distinct_requests w "CN=Test CA" "CN=Test CA"
                "1A2B3C" "1A2B3C") as H2.
  split; [exact (proj1 H1)|].
  apply (proj1 (proj2 (proj2 (proj2 (proj2 (proj2 H2)))))). reflexivity.
Defined.

(** ** Failures of the fallback *)

(** X15: what [curl] prints with exit code 0 is returned only when it is a
    JSON object or is not JSON at all; a JSON array, string, number, boolean
    or [null] cannot be tagged and ends as the error outcome "Curl command
    failed: ..." with the message of the [TypeError]. *)
Theorem fallback_non_object_json_is_error w self method endpoint data t p v :
  py_truthy (has_certificates self) = true ->
  subprocess_run w t (curl_cmd w self method endpoint data) = Completed p ->
  returncode p = 0%Z ->
  stdout p <> "" ->
  json_loads w (stdout p) = Some v ->
  is_dict v = false ->
  exists msg,
    py_setitem v "_method" (PStr "curl") = Raise (TypeError msg)
    /\ _curl_fallback w self method endpoint data t
       = (Ok (PDict [("error", PStr ("Curl command failed: " ++ msg));
                     ("_method", PStr "curl")]),
          t ++ [SubprocessRun (curl_cmd w self method endpoint data) 30])
    /\ classify (PDict [("error", PStr ("Curl command failed: " ++ msg));
                        ("_method", PStr "curl")])
       = (PStr "curl", PStr "N/A", ERROR).
Proof.
  intros Hcert Hrun Hrc Hout Hloads Hv.
  assert (Ht : py_truthy (PStr (stdout p)) = true).
  { cbn. destruct (String.eqb (stdout p) "") eqn:E; [|reflexivity].
    apply String.eqb_eq in E. contradiction. }
  rewrite curl_fallback_runs_once by exact Hcert. cbv zeta.
  rewrite Hrun. unfold curl_result. rewrite Hrc, Ht, Hloads.
  destruct v; try discriminate Hv;
    (eexists; split; [reflexivity | split; reflexivity]).
Qed.

Lemma fallback_non_object_json_is_error_witness :
  let w := Sample.fallback_list in
  let self := Sample.client w in
  exists msg,
    py_setitem (PList []) "_method" (PStr "curl") = Raise (TypeError msg)
    /\ _curl_fallback w self "GET" "ca" None []
       = (Ok (PDict [("error", PStr ("Curl command failed: " ++ msg));
                     ("_method", PStr "curl")]),
          [SubprocessRun (curl_cmd w self "GET" "ca" None) 30])
    /\ classify (PDict [("error", PStr ("Curl command failed: " ++ msg));
                        ("_method", PStr "curl")])
       = (PStr "curl", PStr "N/A", ERROR).
Proof.
  intros w self.
  apply (fallback_non_object_json_is_error w self "GET" "ca" None []
           Sample.list_process (PList [])); reflexivity || discriminate.
Defined.

(** X16: a run of [curl] that ends with a non-zero exit code gives the error
    outcome with that code and the standard error, whatever it printed on
    standard output; a run that exceeds the 30 seconds gives "Request timed
    out"; any other exception of the run gives "Curl command failed: ..."
    with its message. Each is tagged [curl], and none is raised further. *)
Theorem fallback_failures_are_error_outcomes w self method endpoint data t :
  py_truthy (has_certificates self) = true ->
  let cmd := curl_cmd w self method endpoint data in
  match subprocess_run w t cmd with
  | Completed p =>
      returncode p <> 0%Z ->
      _curl_fallback w self method endpoint data t
      = (Ok (PDict [("error", PStr ("Curl failed (exit code: "
                                     ++ int_str (returncode p) ++ ")"));
                    ("stderr", PStr (stderr p));
                    ("_method", PStr "curl")]),
         t ++ [SubprocessRun cmd 30])
  | SubprocessRaised TimeoutExpired =>
      _curl_fallback w self method endpoint data t
      = (Ok (PDict [("error", PStr "Request timed out"); ("_method", PStr "curl")]),
         t ++ [SubprocessRun cmd 30])
  | SubprocessRaised e =>
      _curl_fallback w self method endpoint data t
      = (Ok (PDict [("error", PStr ("Curl command failed: " ++ exn_str e));
                    ("_method", PStr "curl")]),
         t ++ [SubprocessRun cmd 30])
  end.
Proof.
  intros Hcert cmd.
  pose proof (curl_fallback_runs_once w self method endpoint data t Hcert) as H.
  cbv zeta in H. fold cmd in H. rewrite H.
  destruct (subprocess_run w t cmd) as [p|e].
  - intros Hrc. unfold curl_result.
    destruct (Z.eqb (returncode p) 0) eqn:E; [apply Z.eqb_eq in E; contradiction|].
    reflexivity.
  - destruct e; reflexivity.
Qed.

Lemma fallback_failures_are_error_outcomes_witness :
  (let w := Sample.fallback_failing in
   let self := Sample.client w in
   _curl_fallback w self "GET" "ca" None []
   = (Ok (PDict [("error", PStr "Curl failed (exit code: 7)");
                 ("stderr", PStr "Failed to connect");
                 ("_method", PStr "curl")]),
      [SubprocessRun (curl_cmd w self "GET" "ca" None) 30]))
  /\ (let w := Sample.fallback_timeout in
      let self := Sample.client w in
      _curl_fallback w self "GET" "ca" None []
      = (Ok (PDict [("error", PStr "Request timed out"); ("_method", PStr "curl")]),
         [SubprocessRun (curl_cmd w self "GET" "ca" None) 30])).
Proof.
  split.
  - intros w self.
    apply (fallback_failures_are_error_outcomes w self "GET" "ca" None []);
      [reflexivity | discriminate].
  - intros w self.
    apply (fallback_failures_are_error_outcomes w self "GET" "ca" None []).
    reflexivity.
Defined.

(** ** What the clean-up keeps *)

Lemma dict_get_pop_other k k' d :
  String.eqb k k' = false -> Dict.get k (Dict.pop k' d) = Dict.get k d.
Proof.
  intros Hk. induction d as [|[k0 v0] d IH]; [reflexivity|].
  cbn [Dict.pop Dict.get].
  destruct (String.eqb k' k0) eqn:E0.
  - apply String.eqb_eq in E0. subst k0. rewrite Hk. exact IH.
  - cbn [Dict.get]. destruct (String.eqb k k0); [reflexivity | exact IH].
Qed.

(** X17: the clean-up loses nothing else: every entry of the outcome under a
    key other than the internal ones and the two CRL summary keys is shown
    with its value unchanged. *)
Theorem clean_up_keeps_other_entries w d display k :
  clean_up w (PDict d) = Ok display ->
  existsb (String.eqb k)
    ["_method"; "_status_code"; "_url"; "crl_data"; "crl_size_bytes"; "crl_data_preview"]
  = false ->
  exists shown, display = PDict shown /\ Dict.get k shown = Dict.get k d.
Proof.
  intros Hclean Hk. cbn [existsb] in Hk.
  repeat (apply orb_false_elim in Hk; destruct Hk as [?E Hk]).
  revert Hclean. unfold clean_up.
  set (d3 := Dict.pop "_url" (Dict.pop "_status_code" (Dict.pop "_method" d))).
  assert (H3 : Dict.get k d3 = Dict.get k d).
  { unfold d3. now rewrite !dict_get_pop_other by assumption. }
  destruct (Dict.has "crl_data" d3).
  - unfold outcome_bind.
    destruct (py_len (Dict.get_default "crl_data" PNone d3)) as [n|e]; [|discriminate].
    destruct (if Z.ltb 50 n then _ else _) as [p|e]; [|discriminate].
    intros H. injection H as <-. eexists. split; [reflexivity|].
    rewrite !dict_get_set_other by assumption.
    now rewrite dict_get_pop_other by assumption.
  - intros H. injection H as <-. exists d3. now split.
Qed.

Lemma clean_up_keeps_other_entries_witness :
  let d := [("status", PStr "OK"); ("_method", PStr "requests"); ("_status_code", PInt 200)] in
  exists shown,
    PDict [("status", PStr "OK")] = PDict shown
    /\ Dict.get "status" shown = Dict.get "status" d.
Proof.
  intros d.
  apply (clean_up_keeps_other_entries Sample.online d (PDict [("status", PStr "OK")]) "status");
    reflexivity.
Defined.

(** X18: an outcome whose [crl_data] entry has no length (a number, a
    boolean or [null] in the JSON of the backend) cannot be summarised: the
    clean-up raises, and the reply is the ERROR "Failed to execute" text with
    the message of the [TypeError], although the backend answered 200 and the
    request was sent. *)
Theorem unsized_crl_data_fails_the_reply w self method endpoint kw t r d v name :
  py_truthy (has_certificates self) = true ->
  session_request w t method (api_url self endpoint) kw = Responded r ->
  status_code r = 200%Z ->
  json r = Some (PDict d) ->
  Dict.get "crl_data" d = Some v ->
  match v with PNone | PBool _ | PInt _ | PFloat _ => True | _ => False end ->
  let raw := PDict (Dict.set "_status_code" (PInt 200)
                      (Dict.set "_method" (PStr "requests") d)) in
  _make_request w self method endpoint kw t
  = (Ok raw, t ++ [primary_call self method endpoint kw])
  /\ snd (classify raw) = spec_classification (error_indicator d) true true
  /\ format_result w name raw
     = Raise (TypeError ("object of type '" ++ py_type_name v ++ "' has no len()")).
Proof.
  intros Hcert Hresp Hstatus Hjson Hcrl Hv raw.
  split; [|split].
  - unfold_transport. rewrite Hcert, Hresp, Hstatus, Hjson. reflexivity.
  - unfold raw, spec_classification, error_indicator. cbn [classify snd].
    rewrite !dict_has_set_other by reflexivity.
    destruct (Dict.has "error" d); [reflexivity|].
    unfold Dict.get_default. rewrite (dict_get_set_same "_status_code").
    cbn [py_eq_int Z.eqb Pos.eqb]. now rewrite orb_true_r.
  - unfold format_result.
    destruct (classify raw) as [[m s] st].
    assert (Hget : Dict.get "crl_data"
                     (Dict.pop "_url" (Dict.pop "_status_code" (Dict.pop "_method"
                        (Dict.set "_status_code" (PInt 200)
                           (Dict.set "_method" (PStr "requests") d)))))
                   = Some v).
    { rewrite !dict_get_pop_other by reflexivity.
      rewrite !dict_get_set_other by reflexivity. exact Hcrl. }
    unfold raw, clean_up, Dict.has, Dict.get_default. rewrite Hget.
    destruct v; try contradiction; reflexivity.
Qed.

Lemma unsized_crl_data_fails_the_reply_witness :
  let w := Sample.odd_crl in
  let self := Sample.client w in
  handle_call_tool w self "get_ca_list" [] []
  = (Failed "get_ca_list" "object of type 'int' has no len()",
     [primary_call self "GET" "ca" no_kwargs])
  /\ format_result w "get_ca_list"
       (PDict (Dict.set "_status_code" (PInt 200)
                 (Dict.set "_method" (PStr "requests") [("crl_data", PInt 5)])))
     = Raise (TypeError ("object of type '" ++ py_type_name (PInt 5) ++ "' has no len()")).
Proof.
  intros w self. split; [reflexivity|].
  apply (unsized_crl_data_fails_the_reply w self "GET" "ca" no_kwargs []
           Sample.odd_response [("crl_data", PInt 5)] (PInt 5) "get_ca_list");
    reflexivity || exact I.
Defined.

(** ** Classification of the reply *)

Lemma clean_up_outcome w d :
  if crl_data_ok d
  then exists display, clean_up w (PDict d) = Ok display
  else exists e, clean_up w (PDict d) = Raise e.
Proof.
  unfold clean_up, crl_data_ok, Dict.has, Dict.get_default.
  rewrite !dict_get_pop_other by reflexivity.
  destruct (Dict.get "crl_data" d) as [v|]; [|eexists; reflexivity].
  destruct v; cbn [summarisable py_len outcome_bind];
    try (eexists; reflexivity);
    try (match goal with
         | |- context [Z.ltb 50 ?n] => destruct (Z.ltb 50 n)
         end; cbn [py_slice_to outcome_bind negb]; eexists; reflexivity).
Qed.

(** C5, as the code has it. The status text computed for a raw outcome is
    ERROR when it has an error entry, else SUCCESS when its success entry is
    truthy or its status is 200, else WARNING. The reply carries that status
    text whenever the clean-up of the displayed result goes through, that is
    when the outcome has no [crl_data] entry or one that can be summarised
    (bytes, text, a list, a dict of at most 50 entries); otherwise the
    clean-up raises and the reply is the ERROR "Failed to execute" text,
    whatever the rule gave. No reply is headed SUCCESS while its displayed
    result holds an error message. *)
Theorem classification_priority w name d :
  let status :=
    spec_classification (error_indicator d) (success_indicator d) (status_200 d) in
  snd (classify (PDict d)) = status
  /\ (crl_data_ok d = true ->
      forall ejbca_client arguments t t',
        call_tool w ejbca_client name arguments t = (Ok (Some (PDict d)), t') ->
        exists display,
          clean_up w (PDict d) = Ok display
          /\ handle_call_tool w ejbca_client name arguments t
             = (Formatted status name
                  (Dict.get_default "_method" (PStr "unknown") d)
                  (Dict.get_default "_status_code" (PStr "N/A") d)
                  display, t'))
  /\ (crl_data_ok d = false ->
      forall ejbca_client arguments t t',
        call_tool w ejbca_client name arguments t = (Ok (Some (PDict d)), t') ->
        exists e,
          clean_up w (PDict d) = Raise e
          /\ handle_call_tool w ejbca_client name arguments t
             = (Failed name (exn_str e), t'))
  /\ (forall ejbca_client arguments t,
        success_with_error (fst (handle_call_tool w ejbca_client name arguments t)) = false).
Proof.
  intros status. split; [reflexivity|].
  pose proof (clean_up_outcome w d) as Hclean.
  split; [|split].
  - intros Hok c arguments t t' Hcall. rewrite Hok in Hclean.
    destruct Hclean as [display Hd]. exists display. split; [exact Hd|].
    unfold handle_call_tool, bind. rewrite Hcall.
    unfold lift, format_result. cbn [classify]. rewrite Hd. reflexivity.
  - intros Hok c arguments t t' Hcall. rewrite Hok in Hclean.
    destruct Hclean as [e He]. exists e. split; [exact He|].
    unfold handle_call_tool, bind. rewrite Hcall.
    unfold lift, format_result. cbn [classify]. rewrite He. reflexivity.
  - intros c arguments t. unfold handle_call_tool, bind.
    destruct (call_tool w c name arguments t) as [[[result|]|e] t']; try reflexivity.
    unfold lift.
    pose proof (format_result_no_success_with_error w name result) as H.
    destruct (format_result w name result); [exact H | reflexivity].
Qed.

Lemma classification_priority_witness :
  (let w := Sample.serving_crl in
   let self := Sample.client w in
   exists display,
     clean_up w (PDict [("crl_data", PBytes Sample.crl_bytes);
                        ("content_type", PStr "application/pkix-crl");
                        ("content_length", PInt 60);
                        ("success", PBool true);
                        ("_method", PStr "requests");
                        ("_status_code", PInt 200)]) = Ok display
     /\ handle_call_tool w self "get_crl" [("issuer_dn", PStr "CN=Test CA")] []
        = (Formatted SUCCESS "get_crl" (PStr "requests") (PInt 200) display,
           [primary_call self "GET" "ca/CN%3DTest%20CA/getcrl" (with_params [])]))
  /\ (let w := Sample.odd_crl in
      let self := Sample.client w in
      exists e,
        clean_up w (PDict [("crl_data", PInt 5);
                           ("_method", PStr "requests");
                           ("_status_code", PInt 200)]) = Raise e
        /\ handle_call_tool w self "get_ca_list" [] []
           = (Failed "get_ca_list" (exn_str e), [primary_call self "GET" "ca" no_kwargs])).
Proof.
  split.
  - intros w self.
    apply (proj1 (proj2 (classification_priority w "get_crl"
                           [("crl_data", PBytes Sample.crl_bytes);
                            ("content_type", PStr "application/pkix-crl");
                            ("content_length", PInt 60);
                            ("success", PBool true);
                            ("_method", PStr "requests");
                            ("_status_code", PInt 200)])) eq_refl self
             [("issuer_dn", PStr "CN=Test CA")] []); reflexivity.
  - intros w self.
    apply (proj1 (proj2 (proj2 (classification_priority w "get_ca_list"
                                  [("crl_data", PInt 5);
                                   ("_method", PStr "requests");
                                   ("_status_code", PInt 200)]))) eq_refl self
             [] []); reflexivity.
Defined.

(** C5 as stated fails: the backend answers 200 with an object whose
    [crl_data] entry is a number. The raw outcome has no error entry and
    status 200, so the rule gives SUCCESS, but the reply is the ERROR text of
    the exception handler. *)
Lemma classification_overridden_by_failed_clean_up :
  let w := Sample.odd_crl in
  let self := Sample.client w in
  let d := [("crl_data", PInt 5); ("_method", PStr "requests"); ("_status_code", PInt 200)] in
  call_tool w self "get_ca_list" [] []
  = (Ok (Some (PDict d)), [primary_call self "GET" "ca" no_kwargs])
  /\ error_indicator d = false
  /\ status_200 d = true
  /\ spec_classification (error_indicator d) (success_indicator d) (status_200 d) = SUCCESS
  /\ handle_call_tool w self "get_ca_list" [] []
     = (Failed "get_ca_list" "object of type 'int' has no len()",
        [primary_call self "GET" "ca" no_kwargs])
  /\ content_status (fst (handle_call_tool w self "get_ca_list" [] [])) = Some ERROR.
Proof. intros w self d. repeat split. Qed.

(** ** Binary CRL responses *)

Ltac fallback_without_object :=
  eexists; split; [reflexivity|]; split;
  [ intros H; discriminate H
  | intros _; split;
    [ first [ left; reflexivity | right; eexists; split; reflexivity ]
    | do 2 eexists; split; [reflexivity | split; reflexivity] ] ].

Lemma curl_fallback_outcome w self method endpoint data t0 name :
  py_truthy (has_certificates self) = true ->
  let cmd := curl_cmd w self method endpoint data in
  let o := subprocess_run w t0 cmd in
  exists d,
    _curl_fallback w self method endpoint data t0
    = (Ok (PDict d), t0 ++ [SubprocessRun cmd 30])
    /\ (returns_json_object w o = true ->
        exists p d0,
          o = Completed p
          /\ json_loads w (stdout p) = Some (PDict d0)
          /\ d = Dict.set "_method" (PStr "curl") d0)
    /\ (returns_json_object w o = false ->
        (Dict.has "error" d = true
         \/ exists p, o = Completed p
                      /\ d = [("response", PStr (stdout p));
                              ("success", PBool true);
                              ("_method", PStr "curl")])
        /\ exists status display,
             format_result w name (PDict d)
             = Ok (Formatted status name (PStr "curl") (PStr "N/A") (PDict display))
             /\ Dict.has "crl_size_bytes" display = false
             /\ Dict.has "crl_data" display = false).
Proof.
  intros Hcert cmd o.
  rewrite curl_fallback_runs_once by exact Hcert. cbv zeta. fold cmd. fold o.
  unfold curl_result, returns_json_object.
  destruct o as [p|e].
  - destruct (Z.eqb (returncode p) 0); cbn [andb]; [|fallback_without_object].
    destruct (py_truthy (PStr (stdout p))); cbn [andb]; [|fallback_without_object].
    destruct (json_loads w (stdout p)) as [v|] eqn:Hloads; [|fallback_without_object].
    destruct v; try fallback_without_object.
    eexists; split; [reflexivity|]. split; [|intros H; discriminate H].
    intros _. do 2 eexists. split; [reflexivity|]. split; [exact Hloads | reflexivity].
  - destruct e; fallback_without_object.
Qed.

(** C3, as the code has it. On the primary channel a 200 response that is not
    JSON and whose content type starts with [application/pkix-crl] keeps its
    body as raw bytes, and the reply gives [crl_size_bytes] as the exact
    number of bytes of the body, whether or not the preview is cut at 50
    bytes. The fallback channel reads no content type and keeps no bytes: its
    outcome is a JSON object that the process printed with exit code 0,
    tagged [curl], and in every other case (text that is not JSON, a JSON
    value that is not an object, nothing printed, a non-zero exit code, a
    timeout, or an exception of the run such as output that cannot be decoded
    as text) an error outcome or the printed text, and then the reply shows
    no [crl_size_bytes]. *)
Theorem crl_size_exact_on_primary w self method endpoint kw name :
  py_truthy (has_certificates self) = true ->
  (forall t r,
     session_request w t method (api_url self endpoint) kw = Responded r ->
     status_code r = 200%Z ->
     json r = None ->
     String.prefix "application/pkix-crl" (content_type_or_empty r) = true ->
     let size := Z.of_nat (List.length (content r)) in
     let raw := PDict [("crl_data", PBytes (content r));
                       ("content_type", content_type_value r);
                       ("content_length", PInt size);
                       ("success", PBool true);
                       ("_method", PStr "requests");
                       ("_status_code", PInt 200)] in
     _make_request w self method endpoint kw t
     = (Ok raw, t ++ [primary_call self method endpoint kw])
     /\ format_result w name raw
        = Ok (Formatted SUCCESS name (PStr "requests") (PInt 200)
                (PDict [("content_type", content_type_value r);
                        ("content_length", PInt size);
                        ("success", PBool true);
                        ("crl_size_bytes", PInt size);
                        ("crl_data_preview", PStr (crl_preview (content r)))])))
  /\ (forall data t0,
        let cmd := curl_cmd w self method endpoint data in
        let o := subprocess_run w t0 cmd in
        exists d,
          _curl_fallback w self method endpoint data t0
          = (Ok (PDict d), t0 ++ [SubprocessRun cmd 30])
          /\ (returns_json_object w o = true ->
              exists p d0,
                o = Completed p
                /\ json_loads w (stdout p) = Some (PDict d0)
                /\ d = Dict.set "_method" (PStr "curl") d0)
          /\ (returns_json_object w o = false ->
              (Dict.has "error" d = true
               \/ exists p, o = Completed p
                            /\ d = [("response", PStr (stdout p));
                                    ("success", PBool true);
                                    ("_method", PStr "curl")])
              /\ exists status display,
                   format_result w name (PDict d)
                   = Ok (Formatted status name (PStr "curl") (PStr "N/A") (PDict display))
                   /\ Dict.has "crl_size_bytes" display = false
                   /\ Dict.has "crl_data" display = false)).
Proof.
  intros Hcert. split.
  - intros t r Hresp Hstatus Hjson Hct size raw. split.
    + unfold_transport. rewrite Hcert, Hresp, Hstatus, Hjson, Hct. reflexivity.
    + unfold format_result, clean_up, crl_preview. cbn [classify].
      cbn -[Z.ltb Z.of_nat bytes_repr firstn].
      fold size. destruct (Z.ltb 50 size); reflexivity.
  - intros data t0. now apply curl_fallback_outcome.
Qed.

Lemma crl_size_exact_on_primary_witness :
  (let w := Sample.serving_crl in
   let self := Sample.client w in
   let endpoint := "ca/CN%3DTest%20CA/getcrl" in
   let raw := PDict [("crl_data", PBytes Sample.crl_bytes);
                     ("content_type", PStr "application/pkix-crl");
                     ("content_length", PInt 60);
                     ("success", PBool true);
                     ("_method", PStr "requests");
                     ("_status_code", PInt 200)] in
   _make_request w self "GET" endpoint (with_params []) []
   = (Ok raw, [primary_call self "GET" endpoint (with_params [])])
   /\ format_result w "get_crl" raw
      = Ok (Formatted SUCCESS "get_crl" (PStr "requests") (PInt 200)
              (PDict [("content_type", PStr "application/pkix-crl");
                      ("content_length", PInt 60);
                      ("success", PBool true);
                      ("crl_size_bytes", PInt 60);
                      ("crl_data_preview", PStr (crl_preview Sample.crl_bytes))])))
  /\ (let w := Sample.primary_down_binary in
      let self := Sample.client w in
      let endpoint := "ca/CN%3DTest%20CA/getcrl" in
      exists d,
        _curl_fallback w self "GET" endpoint None []
        = (Ok (PDict d), [SubprocessRun (curl_cmd w self "GET" endpoint None) 30])
        /\ exists status display,
             format_result w "get_crl" (PDict d)
             = Ok (Formatted status "get_crl" (PStr "curl") (PStr "N/A") (PDict display))
             /\ Dict.has "crl_size_bytes" display = false
             /\ Dict.has "crl_data" display = false)
  /\ (let w := Sample.fallback_json in
      let self := Sample.client w in
      exists d p d0,
        _curl_fallback w self "GET" "ca" None []
        = (Ok (PDict d), [SubprocessRun (curl_cmd w self "GET" "ca" None) 30])
        /\ subprocess_run w [] (curl_cmd w self "GET" "ca" None) = Completed p
        /\ json_loads w (stdout p) = Some (PDict d0)
        /\ d = Dict.set "_method" (PStr "curl") d0).
Proof.
  split; [|split].
  - intros w self endpoint raw.
    apply (proj1 (crl_size_exact_on_primary w self "GET" endpoint (with_params [])
                    "get_crl" eq_refl) [] Sample.crl_response); reflexivity.
  - intros w self endpoint.
    destruct (proj2 (crl_size_exact_on_primary w self "GET" endpoint (with_params [])
                       "get_crl" eq_refl) None []) as [d [Hrun [_ Hno]]].
    exists d. split; [exact Hrun|]. exact (proj2 (Hno eq_refl)).
  - intros w self.
    destruct (proj2 (crl_size_exact_on_primary w self "GET" "ca" no_kwargs
                       "get_ca_list" eq_refl) None []) as [d [Hrun [Hobj _]]].
    destruct (Hobj eq_refl) as [p [d0 [Hp [Hl Hd]]]].
    exists d, p, d0. now repeat split.
Defined.

(** C3 as stated fails on the fallback channel. When the session fails and
    the binary CRL that [curl] prints cannot be decoded as text, the reply is
    an ERROR with no byte length; when [curl] prints the CRL in PEM armour,
    the reply holds the text and no byte length either. *)
Lemma crl_size_missing_on_fallback :
  (let w := Sample.primary_down_binary in
   let self := Sample.client w in
   let display :=
     [("error",
       PStr "Curl command failed: 'utf-8' codec can't decode byte 0xff in position 2: invalid start byte")] in
   handle_call_tool w self "get_crl" [("issuer_dn", PStr "CN=Test CA")] []
   = (Formatted ERROR "get_crl" (PStr "curl") (PStr "N/A") (PDict display),
      [primary_call self "GET" "ca/CN%3DTest%20CA/getcrl" (with_params []);
       fallback_call w self "GET" "ca/CN%3DTest%20CA/getcrl" (with_params [])])
   /\ Dict.has "crl_size_bytes" display = false
   /\ Dict.has "crl_data" display = false)
  /\ (let w := Sample.primary_down in
      let self := Sample.client w in
      let display := [("response", PStr "-----BEGIN X509 CRL-----");
                      ("success", PBool true)] in
      handle_call_tool w self "get_crl" [("issuer_dn", PStr "CN=Test CA")] []
      = (Formatted SUCCESS "get_crl" (PStr "curl") (PStr "N/A") (PDict display),
         [primary_call self "GET" "ca/CN%3DTest%20CA/getcrl" (with_params []);
          fallback_call w self "GET" "ca/CN%3DTest%20CA/getcrl" (with_params [])])
      /\ Dict.has "crl_size_bytes" display = false
      /\ Dict.has "crl_data" display = false).
Proof. split; intros w self display; repeat split. Qed.

(** ** Internal entries in the reply *)

Lemma make_request_tagged w self method endpoint kw t :
  py_truthy (has_certificates self) = true ->
  exists d extra,
    _make_request w self method endpoint kw t = (Ok (PDict d), t ++ extra)
    /\ Dict.has "_method" d = true.
Proof.
  intros Hcert.
  destruct (make_request_outcome w self method endpoint kw t) as [d [u [H [Htag Hu]]]].
  exists d, (calls_of w self method endpoint kw u). split; [exact H|].
  unfold Dict.has. rewrite Htag.
  destruct u; [|reflexivity|reflexivity].
  assert (Hno : py_truthy (has_certificates self) = false) by now apply Hu.
  rewrite Hcert in Hno. discriminate Hno.
Qed.

Lemma test_connection_keeps_nested_tag w self t :
  py_truthy (has_certificates self) = true ->
  exists health ca extra,
    test_ejbca_connection w self t
    = (Ok (PDict [("connection_test", PStr "completed");
                  ("certificate_api_status", PDict health);
                  ("ca_version", PDict ca);
                  ("certificates_available", has_certificates self);
                  ("base_url", PStr (base_url self))]), t ++ extra)
    /\ Dict.has "_method" health = true
    /\ Dict.has "_method" ca = true.
Proof.
  intros Hcert.
  unfold test_ejbca_connection, get_certificate_api_status, get_ca_version,
    get_certificate_api_status_request, get_ca_version_request, send.
  rewrite !bind_lift_ok. cbn [req_method req_endpoint req_kwargs].
  destruct (make_request_tagged w self "GET" "certificate/status" no_kwargs t Hcert)
    as [d1 [e1 [H1 T1]]].
  destruct (make_request_tagged w self "GET" "ca/version" no_kwargs (t ++ e1) Hcert)
    as [d2 [e2 [H2 T2]]].
  exists d1, d2, (e1 ++ e2).
  unfold bind at 1. rewrite H1. unfold bind at 1. rewrite H2.
  unfold ret. rewrite <- app_assoc. now repeat split.
Qed.

Lemma troubleshoot_keeps_nested_tag w self t :
  py_truthy (has_certificates self) = true ->
  exists diagnostics health ca ca_list recommendations extra,
    troubleshoot_connection w self t
    = (Ok (PDict [("diagnostics", diagnostics);
                  ("api_tests",
                   PDict [("certificate_status", PDict health);
                          ("ca_version", PDict ca);
                          ("ca_list", PDict ca_list)]);
                  ("recommendations", PList recommendations)]), t ++ extra)
    /\ Dict.has "_method" health = true
    /\ Dict.has "_method" ca = true
    /\ Dict.has "_method" ca_list = true.
Proof.
  intros Hcert.
  unfold troubleshoot_connection, get_certificate_api_status, get_ca_version,
    get_ca_list, get_certificate_api_status_request, get_ca_version_request,
    get_ca_list_request, send.
  rewrite !bind_lift_ok. cbn [req_method req_endpoint req_kwargs].
  destruct (make_request_tagged w self "GET" "certificate/status" no_kwargs t Hcert)
    as [d1 [e1 [H1 T1]]].
  destruct (make_request_tagged w self "GET" "ca/version" no_kwargs (t ++ e1) Hcert)
    as [d2 [e2 [H2 T2]]].
  destruct (make_request_tagged w self "GET" "ca" no_kwargs ((t ++ e1) ++ e2) Hcert)
    as [d3 [e3 [H3 T3]]].
  unfold bind at 1. rewrite H1. unfold bind at 1. rewrite H2.
  unfold bind at 1. rewrite H3.
  cbn [py_get]. rewrite !bind_lift_ok. unfold ret.
  do 2 eexists. exists d2, d3. eexists. exists (e1 ++ e2 ++ e3).
  rewrite <- !app_assoc. split; [reflexivity|]. now repeat split.
Qed.

(** X6: the clean-up works on the top level only. Whatever the tool, the
    arguments and the answers of the environment, the dict shown in a
    formatted reply has none of the entries [_method], [_status_code], [_url]
    and [crl_data] among its own keys. The dicts nested in it are left as
    they are: with credentials available, the outcomes of the probes shown
    inside the replies of the two diagnostic tools still hold their
    [_method] entry. *)
Theorem clean_up_is_top_level_only w ejbca_client arguments t :
  (forall name,
     top_level_internal_key (fst (handle_call_tool w ejbca_client name arguments t)) = false)
  /\ (py_truthy (has_certificates ejbca_client) = true ->
      (exists display health extra,
         handle_call_tool w ejbca_client "test_ejbca_connection" arguments t
         = (Formatted WARNING "test_ejbca_connection" (PStr "unknown") (PStr "N/A")
              (PDict display), t ++ extra)
         /\ Dict.get "certificate_api_status" display = Some (PDict health)
         /\ Dict.has "_method" health = true)
      /\ (exists display tests health extra,
            handle_call_tool w ejbca_client "troubleshoot_connection" arguments t
            = (Formatted WARNING "troubleshoot_connection" (PStr "unknown") (PStr "N/A")
                 (PDict display), t ++ extra)
            /\ Dict.get "api_tests" display = Some (PDict tests)
            /\ Dict.get "certificate_status" tests = Some (PDict health)
            /\ Dict.has "_method" health = true)).
Proof.
  split.
  - intros name. unfold handle_call_tool, bind.
    destruct (call_tool w ejbca_client name arguments t) as [[[result|]|e] t'];
      try reflexivity.
    unfold lift, format_result.
    destruct (classify result) as [[method status_code] status_text].
    destruct (clean_up w result) as [display|e] eqn:Hd; cbn [outcome_bind fst];
      [|reflexivity].
    destruct result; try (cbn in Hd; injection Hd as <-; reflexivity).
    destruct (clean_up_drops_internal_keys w d display Hd) as [d' [-> Hall]].
    cbn [top_level_internal_key].
    cbn [forallb internal_keys] in Hall. cbn [existsb internal_keys].
    repeat (apply andb_prop in Hall; destruct Hall as [?H Hall]).
    repeat match goal with
           | H : negb ?b = true |- _ => apply negb_true_iff in H; rewrite H
           end.
    reflexivity.
  - intros Hcert. split.
    + destruct (test_connection_keeps_nested_tag w ejbca_client t Hcert)
        as [h [c [extra [Hrun [Th _]]]]].
      unfold handle_call_tool.
      change (call_tool w ejbca_client "test_ejbca_connection" arguments)
        with (result <- test_ejbca_connection w ejbca_client ;; ret (Some result)).
      unfold bind at 2. unfold bind at 1. rewrite Hrun.
      eexists. exists h, extra. split; [reflexivity|]. split; [reflexivity | exact Th].
    + destruct (troubleshoot_keeps_nested_tag w ejbca_client t Hcert)
        as [dg [h [c [l [recs [extra [Hrun [Th _]]]]]]]].
      unfold handle_call_tool.
      change (call_tool w ejbca_client "troubleshoot_connection" arguments)
        with (result <- troubleshoot_connection w ejbca_client ;; ret (Some result)).
      unfold bind at 2. unfold bind at 1. rewrite Hrun.
      do 2 eexists. exists h, extra.
      split; [reflexivity|]. split; [reflexivity|]. split; [reflexivity | exact Th].
Qed.

Lemma clean_up_is_top_level_only_witness :
  let w := Sample.online in
  let self := Sample.client w in
  exists display health extra,
    handle_call_tool w self "test_ejbca_connection" [] []
    = (Formatted WARNING "test_ejbca_connection" (PStr "unknown") (PStr "N/A")
         (PDict display), [] ++ extra)
    /\ Dict.get "certificate_api_status" display = Some (PDict health)
    /\ Dict.has "_method" health = true.
Proof.
  intros w self.
  apply (proj1 (proj2 (clean_up_is_top_level_only w self [] []) eq_refl)).
Defined.
